(** * Huntly browser extension: the background service worker

    A shallow embedding of [app/extension/src/background.ts]: the badge
    (presence) cache, the registry of abort controllers of direct-provider
    (Vercel AI SDK) tasks, the prompt preparation, the aggregation of the AI
    toolbar data and the listeners that drive them.

    JavaScript strings are sequences of UTF-16 code units; they are modelled
    as [list N].  Asynchronous functions are modelled as activations that are
    suspended at each [await] and resumed by the event loop; the module-level
    maps are fields of one shared [State]. *)

From Stdlib Require Import ZArith NArith List Bool Lia String Ascii.
From stdpp Require Import base option list gmap.
Import ListNotations.

Local Open Scope N_scope.

(** ** JavaScript strings *)

Abbreviation jsstring := (list N).

(** An ASCII literal as a JavaScript string. *)
Definition lit (s : string) : jsstring :=
  map N_of_ascii (list_ascii_of_string s).

(** [ToBoolean] on a string: only the empty string is falsy. *)
Definition truthy (s : jsstring) : bool :=
  match s with
  | [] => false
  | _ :: _ => true
  end.

(** [a || b] on strings. *)
Definition orElse (a b : jsstring) : jsstring :=
  if truthy a then a else b.

(** [ToBoolean] on a value that may be [undefined]. *)
Definition truthyOpt (o : option jsstring) : bool :=
  match o with
  | Some s => truthy s
  | None => false
  end.

(** [String.prototype.startsWith]. *)
Fixpoint startsWith (p s : jsstring) : bool :=
  match p, s with
  | [], _ => true
  | _ :: _, [] => false
  | a :: p', b :: s' => (a =? b) && startsWith p' s'
  end.

(** WhiteSpace and LineTerminator code units, as used by [trim]. *)
Definition isWhiteSpace (c : N) : bool :=
  (c =? 9) || (c =? 10) || (c =? 11) || (c =? 12) || (c =? 13) ||
  (c =? 32) || (c =? 160) || (c =? 5760) ||
  ((8192 <=? c) && (c <=? 8202)) ||
  (c =? 8232) || (c =? 8233) || (c =? 8239) || (c =? 8287) ||
  (c =? 12288) || (c =? 65279).

Fixpoint trimStart (s : jsstring) : jsstring :=
  match s with
  | [] => []
  | c :: s' => if isWhiteSpace c then trimStart s' else s
  end.

Definition trimEnd (s : jsstring) : jsstring :=
  rev (trimStart (rev s)).

(** [String.prototype.trim]. *)
Definition trim (s : jsstring) : jsstring := trimEnd (trimStart s).

(** ** Prompt preparation *)

(** [prepareMarkdownContent(markdownContent, title?)]: the template literal
    is "# " followed by the title, two line feeds and the content. *)
Definition prepareMarkdownContent (markdownContent : jsstring)
    (title : option jsstring) : jsstring :=
  match title with
  | Some t =>
      if truthy t && truthy (trim t)
      then lit "# " ++ t ++ [10; 10] ++ markdownContent
      else markdownContent
  | None => markdownContent
  end.

(** The placeholder matched by the regular expression [/\{lang\}/g]. *)
Definition langToken : jsstring := lit "{lang}".

(** [GetSubstitution] for a regular expression without capture groups:
    in the replacement text a dollar sign followed by a dollar sign is one
    dollar sign, followed by an ampersand the matched text, followed by a
    backquote the text before the match, followed by a quote the text after
    it; any other dollar sign stands for itself. *)
Fixpoint getSubstitution (matched before after r : jsstring) : jsstring :=
  match r with
  | [] => []
  | c :: r' =>
      if c =? 36 then
        match r' with
        | [] => [c]
        | d :: r'' =>
            if d =? 36 then 36 :: getSubstitution matched before after r''
            else if d =? 38 then matched ++ getSubstitution matched before after r''
            else if d =? 96 then before ++ getSubstitution matched before after r''
            else if d =? 39 then after ++ getSubstitution matched before after r''
            else c :: getSubstitution matched before after r'
        end
      else c :: getSubstitution matched before after r'
  end.


(** [s.replace(/\{lang\}/g, r)], scanning [s] from the left.  [before] is
    the part of the subject already scanned; [skip] counts the code units of
    a match that remain to be stepped over. *)
Fixpoint replaceLangFrom (r : jsstring) (before : jsstring) (skip : nat)
    (s : jsstring) : jsstring :=
  match s with
  | [] => []
  | c :: s' =>
      match skip with
      | S k => replaceLangFrom r (before ++ [c]) k s'
      | O =>
          if startsWith langToken s
          then getSubstitution langToken before
                 (drop (length langToken) s) r
               ++ replaceLangFrom r (before ++ [c])
                    (Nat.pred (length langToken)) s'
          else c :: replaceLangFrom r (before ++ [c]) 0 s'
      end
  end.

Definition replaceLang (s r : jsstring) : jsstring :=
  replaceLangFrom r [] 0 s.


(** Whether every code unit of [s] is white space (so that [s.trim()] is
    empty). *)
Definition blank (s : jsstring) : bool := forallb isWhiteSpace s.


(** [id.split(':').slice(1).join(':')]: the text after the first colon, and
    the empty string when there is none. *)
Fixpoint afterFirstColon (s : jsstring) : jsstring :=
  match s with
  | [] => []
  | c :: s' => if c =? 58 then s' else afterFirstColon s'
  end.

(** ** Data *)

(** [selectedModel] of a process command: [provider] and [id], the latter
    of the form provider:modelId. *)
Record SelectedModel := {
  sm_provider : jsstring;
  sm_id : jsstring;
}.

(** The task object built by the [shortcuts_process] listener.  The tab id
    is the one [msg.payload.tabId || sender.tab?.id] resolved to; the
    [contentType] and the shortcut list are only relayed in the preview
    message and are left out. *)
Record Task := {
  tabId : Z;
  taskId : jsstring;
  shortcutName : jsstring;
  shortcutContent : option jsstring;
  content : jsstring;
  url : jsstring;
  title : jsstring;
  selectedModel : option SelectedModel;
}.

(** A provider entry of [storage.providers]. *)
Record ProviderConfig := {
  enabled : bool;
  enabledModels : list jsstring;
}.

(** What [getPromptsSettings] resolves to, as far as the task reads it. *)
Record PromptsSettings := {
  defaultTargetLanguage : option jsstring;
}.

(** The payload of a message sent to a tab with [chrome.tabs.sendMessage]. *)
Inductive TabMessage :=
| ShortcutsPreview (task : jsstring)
| ShortcutsProcessingStart (title name task : jsstring)
| ShortcutsProcessData (data accumulatedContent title task : jsstring)
| ShortcutsProcessResult (content title task : jsstring)
| ShortcutsProcessError (error title task : jsstring)
| TabComplete.

(** Calls that leave the service worker. *)
Inductive Effect :=
| SendMessage (tab : Z) (m : TabMessage)
| SetBadgeText (text : jsstring) (tab : Z)
| SetBadgeBackgroundColor (color : jsstring) (tab : Z)
| GetPageOperateResult (url : jsstring)
| StreamText (provider modelId system prompt : jsstring).

(** The body of the answer of [getPageOperateResult], seen through
    [JSON.parse]: a falsy answer, an answer that does not parse, or the
    parsed page data with its [id] when it has one. *)
Inductive PageOperateResult :=
| NoResult
| Malformed
| PageData (id : option Z).

(** The value an awaited promise (or a callback) is settled with.  A
    rejection is either with a value whose [message] property reads as
    [message] ([None] when it has none), or with [undefined] or [null], on
    which reading [message] throws. *)
Inductive Response :=
| RProvidersStorage (providers : gmap jsstring ProviderConfig)
| RPromptsSettings (s : PromptsSettings)
| RStream
| RChunk (textPart : jsstring)
| RDone
| RReturned
| RBaseUrl (baseUrl : jsstring)
| RPageOperateResult (r : PageOperateResult)
| RTab (tab : option (Z * option jsstring))
| RAck
| RRejected (message : option jsstring)
| RRejectedNullish.

(** A caught value, as far as the catch blocks read it: [undefined] or
    [null], or a value with the [message] it has. *)
Inductive Caught :=
| CaughtNullish
| CaughtValue (message : option jsstring).

(** Where a direct-provider task is suspended. *)
Inductive VercelPhase :=
| AwaitProvidersStorage
| AwaitPromptsSettings (modelId : jsstring)
| AwaitStreamText
| Streaming (accumulatedContent : jsstring)
| Closing (accumulatedContent : jsstring).

(** A suspended activation of an asynchronous function or a pending
    callback.  [ctrl] is the [AbortController] the activation closed over. *)
Inductive Activation :=
| Finished
| Vercel (t : Task) (ctrl : nat) (ph : VercelPhase)
| Sse (t : Task) (ctrl : nat) (accumulatedContent : jsstring)
| PreviewAck (t : Task)
| BadgeAwaitBaseUrl (tab : Z) (url : jsstring) (forceRefresh : bool)
| BadgeAwaitResult (tab : Z)
| BadgeAwaitTab (activated : option Z).

(** The module-level state of the service worker.  [controllers] is the
    heap of [AbortController] objects, in allocation order, each with its
    [signal.aborted] flag; the maps hold references into it.  [trace] is the
    log of outgoing calls, each with the activation that made it. *)
Record State := {
  controllers : list bool;
  vercelAIAbortControllers : gmap jsstring nat;
  badgeCache : gmap Z jsstring;
  sseTasks : gmap jsstring (Z * nat);
  activations : list Activation;
  trace : list (option nat * Effect);
}.

Definition initial : State :=
  {| controllers := []; vercelAIAbortControllers := ∅; badgeCache := ∅;
     sseTasks := ∅; activations := []; trace := [] |}.

Definition withControllers (f : list bool -> list bool) (st : State) : State :=
  {| controllers := f (controllers st);
     vercelAIAbortControllers := vercelAIAbortControllers st;
     badgeCache := badgeCache st; sseTasks := sseTasks st;
     activations := activations st; trace := trace st |}.

Definition withVercel (f : gmap jsstring nat -> gmap jsstring nat)
    (st : State) : State :=
  {| controllers := controllers st;
     vercelAIAbortControllers := f (vercelAIAbortControllers st);
     badgeCache := badgeCache st; sseTasks := sseTasks st;
     activations := activations st; trace := trace st |}.

Definition withBadgeCache (f : gmap Z jsstring -> gmap Z jsstring)
    (st : State) : State :=
  {| controllers := controllers st;
     vercelAIAbortControllers := vercelAIAbortControllers st;
     badgeCache := f (badgeCache st); sseTasks := sseTasks st;
     activations := activations st; trace := trace st |}.

Definition withSse (f : gmap jsstring (Z * nat) -> gmap jsstring (Z * nat))
    (st : State) : State :=
  {| controllers := controllers st;
     vercelAIAbortControllers := vercelAIAbortControllers st;
     badgeCache := badgeCache st; sseTasks := f (sseTasks st);
     activations := activations st; trace := trace st |}.

Definition withActivations (f : list Activation -> list Activation)
    (st : State) : State :=
  {| controllers := controllers st;
     vercelAIAbortControllers := vercelAIAbortControllers st;
     badgeCache := badgeCache st; sseTasks := sseTasks st;
     activations := f (activations st); trace := trace st |}.

(** Record an outgoing call made by activation [who]. *)
Definition emit (who : option nat) (e : Effect) (st : State) : State :=
  {| controllers := controllers st;
     vercelAIAbortControllers := vercelAIAbortControllers st;
     badgeCache := badgeCache st; sseTasks := sseTasks st;
     activations := activations st; trace := trace st ++ [(who, e)] |}.

(** [signal.aborted] of controller [c]. *)
Definition aborted (c : nat) (st : State) : bool :=
  default false (controllers st !! c).

(** [controller.abort()]. *)
Definition abort (c : nat) (st : State) : State :=
  withControllers (fun h => <[c := true]> h) st.

(** [new AbortController()]: the reference is the next free heap index. *)
Definition newAbortController (st : State) : nat * State :=
  (length (controllers st), withControllers (fun h => h ++ [false]) st).

(** Suspend activation [pid] as [a] (or end it, with [Finished]). *)
Definition suspend (pid : nat) (a : Activation) (st : State) : State :=
  withActivations (fun l => if decide (pid < length l)%nat
                            then <[pid := a]> l else l ++ [a]) st.

(** [chrome.tabs.sendMessage] inside a try block: [None] when the call
    throws, in which case nothing is sent. *)
Definition sendMessage (throws : bool) (who : nat) (tab : Z) (m : TabMessage)
    (st : State) : option State :=
  if throws then None else Some (emit (Some who) (SendMessage tab m) st).

(** ** The managed-server task manager *)

Module sseRequestManager.

(** Modelled from the spec: [sseTaskManager.ts] is not part of the sources
    at hand.  The manager keeps, per task id, the tab the task streams to
    and its cancellation handle (task registry and tab association tracker);
    registering stores the handle. *)
Definition processContentWithShortcutStream (t : Task) (st : State)
    : nat * State :=
  let (c, st1) := newAbortController st in
  (c, withSse (fun m => <[taskId t := (tabId t, c)]> m) st1).

(** Modelled from the spec: [cancel(taskId)] is true if a handle existed and
    was invoked and removed, false if there is no such task. *)
Definition cancelTask (task : jsstring) (st : State) : bool * State :=
  match sseTasks st !! task with
  | Some (_, c) => (true, withSse (delete task) (abort c st))
  | None => (false, st)
  end.

(** Modelled from the spec: [cancelAllForOrigin(originId)] invokes the
    cancellation of every task associated with the origin, clears the
    association set and returns the count cancelled. *)
Definition cancelTasksByTabId (tab : Z) (st : State) : nat * State :=
  let victims :=
    filter (fun kv : jsstring * (Z * nat) => fst (snd kv) = tab) (sseTasks st) in
  let st1 := foldr (fun kv s => abort (snd (snd kv)) s) st (map_to_list victims) in
  (size victims,
   withSse (filter (fun kv : jsstring * (Z * nat) => fst (snd kv) <> tab)) st1).

(** Modelled from the spec: [remove(taskId)], on completion or error. *)
Definition remove (task : jsstring) (st : State) : State :=
  withSse (delete task) st.

End sseRequestManager.

(** ** Functions of other modules the worker calls *)

(** [createProviderModel(config, modelId)] of [ai/providers] yields a model
    object or null; the model is opaque to the worker, so only whether one
    is produced is kept.  [getLanguageNativeName] is from [storage]. *)
Class Externals := {
  createProviderModel : ProviderConfig -> jsstring -> bool;
  getLanguageNativeName : jsstring -> jsstring;
}.

Section Worker.

Context `{Externals}.

(** ** Direct-provider tasks *)

(** [cancelVercelAITask(taskId)]. *)
Definition cancelVercelAITask (task : jsstring) (st : State) : bool * State :=
  match vercelAIAbortControllers st !! task with
  | Some c => (true, withVercel (delete task) (abort c st))
  | None => (false, st)
  end.

(** The system prompt sent upstream: the placeholder replaced in
    [shortcutContent || ''] by the native name of
    [promptsSettings.defaultTargetLanguage || 'English']. *)
Definition systemPrompt (t : Task) (s : PromptsSettings) : jsstring :=
  let target := orElse (default [] (defaultTargetLanguage s)) (lit "English") in
  replaceLang (default [] (shortcutContent t)) (getLanguageNativeName target).

(** The user prompt sent upstream. *)
Definition userPrompt (t : Task) : jsstring :=
  prepareMarkdownContent (content t) (Some (title t)).

(** The catch block of [startProcessingWithVercelAI].  The payload of the
    error message is built inside the inner try block: when the caught
    value is [undefined] or [null], reading [error.message] throws there and
    nothing is sent. *)
Definition vercelCatch (pid : nat) (t : Task) (c : nat)
    (error : Caught) (throws : bool) (st : State) : State :=
  let st1 := withVercel (delete (taskId t)) st in
  if aborted c st1 then suspend pid Finished st1
  else
    match error with
    | CaughtNullish => suspend pid Finished st1
    | CaughtValue message =>
        let m := ShortcutsProcessError
                   (orElse (default [] message) (lit "Processing failed"))
                   (shortcutName t) (taskId t) in
        suspend pid Finished
          (default st1 (sendMessage throws pid (tabId t) m st1))
    end.

(** The code after the loop over [result.textStream]. *)
Definition vercelAfterLoop (pid : nat) (t : Task) (c : nat)
    (acc : jsstring) (throws : bool) (st : State) : State :=
  let st1 := withVercel (delete (taskId t)) st in
  if negb (aborted c st1) then
    let m := ShortcutsProcessResult acc (shortcutName t) (taskId t) in
    suspend pid Finished
      (default st1 (sendMessage throws pid (tabId t) m st1))
  else suspend pid Finished st1.

(** [startProcessingWithVercelAI(task)] up to its first [await]: the
    controller is created and registered under the task id and the start
    message is sent (outside the try block: when that call throws the
    activation ends there). *)
Definition startProcessingWithVercelAI (t : Task) (throws : bool)
    (st : State) : State :=
  let pid := length (activations st) in
  let (c, st1) := newAbortController st in
  let st2 := withVercel (fun m => <[taskId t := c]> m) st1 in
  let m := ShortcutsProcessingStart (shortcutName t) (shortcutName t) (taskId t) in
  match sendMessage throws pid (tabId t) m st2 with
  | Some st3 => suspend pid (Vercel t c AwaitProvidersStorage) st3
  | None => suspend pid Finished st2
  end.

(** [startProcessingWithVercelAI] resumed in phase [ph] with [r]. *)
Definition resumeVercel (pid : nat) (t : Task) (c : nat) (ph : VercelPhase)
    (r : Response) (throws : bool) (st : State) : State :=
  match ph, r with
  | _, RRejected message => vercelCatch pid t c (CaughtValue message) throws st
  | _, RRejectedNullish => vercelCatch pid t c CaughtNullish throws st
  | AwaitProvidersStorage, RProvidersStorage providers =>
      match selectedModel t with
      | None =>
          vercelCatch pid t c
            (CaughtValue
               (Some (lit "Cannot read properties of undefined (reading 'provider')")))
            throws st
      | Some sm =>
          let providerType := sm_provider sm in
          match providers !! providerType with
          | Some config =>
              if enabled config then
                let modelId := afterFirstColon (sm_id sm) in
                if createProviderModel config modelId
                then suspend pid (Vercel t c (AwaitPromptsSettings modelId)) st
                else vercelCatch pid t c
                       (CaughtValue
                          (Some (lit "Failed to create model for " ++ providerType)))
                       throws st
              else vercelCatch pid t c
                     (CaughtValue
                        (Some (lit "Provider " ++ providerType
                               ++ lit " is not configured or enabled")))
                     throws st
          | None =>
              vercelCatch pid t c
                (CaughtValue
                   (Some (lit "Provider " ++ providerType
                          ++ lit " is not configured or enabled")))
                throws st
          end
      end
  | AwaitPromptsSettings modelId, RPromptsSettings s =>
      let provider := default [] (sm_provider <$> selectedModel t) in
      suspend pid (Vercel t c AwaitStreamText)
        (emit (Some pid)
           (StreamText provider modelId (systemPrompt t s) (userPrompt t)) st)
  | AwaitStreamText, RStream => suspend pid (Vercel t c (Streaming [])) st
  | Streaming acc, RChunk textPart =>
      if aborted c st then suspend pid (Vercel t c (Closing acc)) st
      else
        let acc' := acc ++ textPart in
        let m := ShortcutsProcessData textPart acc' (shortcutName t) (taskId t) in
        match sendMessage throws pid (tabId t) m st with
        | Some st1 => suspend pid (Vercel t c (Streaming acc')) st1
        | None => suspend pid (Vercel t c (Closing acc')) st
        end
  | Streaming acc, RDone => vercelAfterLoop pid t c acc throws st
  | Closing acc, RReturned => vercelAfterLoop pid t c acc throws st
  | _, _ => st
  end.

(** ** Managed-server tasks *)

(** [startProcessing] inside [startProcessingWithShortcuts]. *)
Definition startProcessing (t : Task) (throws : bool) (st : State) : option State :=
  let pid := length (activations st) in
  let m := ShortcutsProcessingStart (shortcutName t) (shortcutName t) (taskId t) in
  match sendMessage throws pid (tabId t) m st with
  | Some st1 =>
      let (c, st2) := sseRequestManager.processContentWithShortcutStream t st1 in
      Some (suspend pid (Sse t c []) st2)
  | None => None
  end.

(** [startProcessingWithShortcuts(task, shortcuts, skipPreview)]. *)
Definition startProcessingWithShortcuts (t : Task) (skipPreview : bool)
    (throws : bool) (st : State) : State :=
  if skipPreview then default st (startProcessing t throws st)
  else
    let pid := length (activations st) in
    match sendMessage throws pid (tabId t) (ShortcutsPreview (taskId t)) st with
    | Some st1 => suspend pid (PreviewAck t) st1
    | None => st
    end.

(** The callbacks [onData], [onEnd] and [onError] passed to the manager.
    Modelled from the spec: the manager suppresses the callbacks of a task
    whose handle was invoked and removes the task when it ends. *)
Definition resumeSse (pid : nat) (t : Task) (c : nat) (acc : jsstring)
    (r : Response) (throws : bool) (st : State) : State :=
  if aborted c st then suspend pid Finished st
  else
    match r with
    | RChunk data =>
        let acc' := acc ++ data in
        let m := ShortcutsProcessData data acc' (shortcutName t) (taskId t) in
        match sendMessage throws pid (tabId t) m st with
        | Some st1 => suspend pid (Sse t c acc') st1
        | None =>
            suspend pid (Sse t c acc')
              (snd (sseRequestManager.cancelTask (taskId t) st))
        end
    | RDone =>
        let m := ShortcutsProcessResult acc (shortcutName t) (taskId t) in
        let st1 := default st (sendMessage throws pid (tabId t) m st) in
        suspend pid Finished (sseRequestManager.remove (taskId t) st1)
    | RRejected message =>
        let m := ShortcutsProcessError
                   (orElse (default [] message) (lit "Processing failed"))
                   (shortcutName t) (taskId t) in
        let st1 := default st (sendMessage throws pid (tabId t) m st) in
        suspend pid Finished (sseRequestManager.remove (taskId t) st1)
    | RRejectedNullish =>
        suspend pid Finished (sseRequestManager.remove (taskId t) st)
    | _ => st
    end.

(** ** The badge *)

Definition SAVED_BADGE_TEXT : jsstring := [10003].
Definition SAVED_BADGE_BG : jsstring := lit "#15803D".

(** [url.startsWith('http://') || url.startsWith('https://')]. *)
Definition isHttpUrl (url : jsstring) : bool :=
  startsWith (lit "http://") url || startsWith (lit "https://") url.

(** [chrome.action.setBadgeText({ text: "", tabId })]. *)
Definition clearBadge (pid : nat) (tab : Z) (st : State) : State :=
  emit (Some pid) (SetBadgeText [] tab) st.

(** [updateBadgeForTab(tabId, url, forceRefresh)] up to its first [await]:
    the guard on the url, then the wait for [getApiBaseUrl()]. *)
Definition updateBadgeForTab (tab : Z) (url : jsstring) (forceRefresh : bool)
    (st : State) : State :=
  let pid := length (activations st) in
  if negb (truthy url) || (negb (startsWith (lit "http://") url)
                           && negb (startsWith (lit "https://") url))
  then suspend pid Finished (clearBadge pid tab st)
  else suspend pid (BadgeAwaitBaseUrl tab url forceRefresh) st.

(** [updateBadgeForTab] resumed with the base url: the check of the server
    configuration and of the cache, the cache update and the call of
    [getPageOperateResult(0, url)]. *)
Definition resumeBadgeBaseUrl (pid : nat) (tab : Z) (url : jsstring)
    (forceRefresh : bool) (r : Response) (st : State) : State :=
  match r with
  | RBaseUrl baseUrl =>
      if negb (truthy baseUrl) then suspend pid Finished (clearBadge pid tab st)
      else if negb forceRefresh && bool_decide (badgeCache st !! tab = Some url)
      then suspend pid Finished st
      else
        let st1 := withBadgeCache (fun m => <[tab := url]> m) st in
        suspend pid (BadgeAwaitResult tab)
          (emit (Some pid) (GetPageOperateResult url) st1)
  | RRejected _ => suspend pid Finished (clearBadge pid tab st)
  | RRejectedNullish => suspend pid Finished (clearBadge pid tab st)
  | _ => st
  end.

(** [updateBadgeForTab] resumed with the answer of the lookup. *)
Definition resumeBadgeResult (pid : nat) (tab : Z) (r : Response)
    (st : State) : State :=
  match r with
  | RPageOperateResult (PageData (Some id)) =>
      if (0 <? id)%Z then
        suspend pid Finished
          (emit (Some pid) (SetBadgeBackgroundColor SAVED_BADGE_BG tab)
             (emit (Some pid) (SetBadgeText SAVED_BADGE_TEXT tab) st))
      else suspend pid Finished (clearBadge pid tab st)
  | RPageOperateResult _ => suspend pid Finished (clearBadge pid tab st)
  | RRejected _ => suspend pid Finished (clearBadge pid tab st)
  | RRejectedNullish => suspend pid Finished (clearBadge pid tab st)
  | _ => st
  end.

(** The callbacks of [chrome.tabs.get] in the [onActivated] listener
    ([activated] is the id of the activated tab) and of [chrome.tabs.query]
    in [refreshBadgeForActiveTab]. *)
Definition resumeBadgeTab (pid : nat) (activated : option Z) (r : Response)
    (st : State) : State :=
  match r with
  | RTab tab =>
      let st1 := suspend pid Finished st in
      match activated, tab with
      | Some id, Some (_, Some u) =>
          if truthy u then updateBadgeForTab id u false st1 else st1
      | None, Some (id, Some u) =>
          if negb (id =? 0)%Z && truthy u
          then updateBadgeForTab id u true st1 else st1
      | _, _ => st1
      end
  | _ => st
  end.

(** [refreshBadgeForActiveTab()]. *)
Definition refreshBadgeForActiveTab (st : State) : State :=
  suspend (length (activations st)) (BadgeAwaitTab None) st.

(** ** The listeners and the event loop *)

(** What the event loop delivers: a message, a tab event, or the settlement
    of what activation [pid] waits for.  [throws] tells whether a
    [chrome.tabs.sendMessage] call made in this turn throws. *)
Inductive Input :=
| ShortcutsProcess (t : Task) (skipPreview : bool) (throws : bool)
| ShortcutsCancel (task : jsstring)
| BadgeRefresh (tab : option Z) (url : option jsstring)
| TabUpdated (tab : Z) (complete : bool) (changeUrl tabUrl : option jsstring)
| TabActivated (tab : Z)
| TabRemoved (tab : Z)
| Settle (pid : nat) (r : Response) (throws : bool).

(** [selectedModel?.provider === 'huntly-server']. *)
Definition isHuntlyServer (t : Task) : bool :=
  match selectedModel t with
  | Some sm => bool_decide (sm_provider sm = lit "huntly-server")
  | None => false
  end.

(** The [chrome.tabs.onUpdated] listener. *)
Definition tabs_onUpdated (tab : Z) (complete : bool)
    (changeUrl tabUrl : option jsstring) (st : State) : State :=
  let st1 :=
    if complete then
      let st' := emit None (SendMessage tab TabComplete) st in
      match tabUrl with
      | Some u => if truthy u then updateBadgeForTab tab u false st' else st'
      | None => st'
      end
    else st in
  match changeUrl with
  | Some u =>
      if truthy u
      then updateBadgeForTab tab u false (withBadgeCache (delete tab) st1)
      else st1
  | None => st1
  end.

(** The [chrome.tabs.onRemoved] listener. *)
Definition tabs_onRemoved (tab : Z) (st : State) : nat * State :=
  let (cancelledCount, st1) := sseRequestManager.cancelTasksByTabId tab st in
  (cancelledCount, withBadgeCache (delete tab) st1).

(** The [shortcuts_cancel] branch of the message listener. *)
Definition shortcuts_cancel (task : jsstring) (st : State) : bool * State :=
  let (sseCancelled, st1) := sseRequestManager.cancelTask task st in
  let (vercelCancelled, st2) := cancelVercelAITask task st1 in
  (sseCancelled || vercelCancelled, st2).

(** Resume a suspended activation. *)
Definition resume (pid : nat) (a : Activation) (r : Response) (throws : bool)
    (st : State) : State :=
  match a with
  | Finished => st
  | Vercel t c ph => resumeVercel pid t c ph r throws st
  | Sse t c acc => resumeSse pid t c acc r throws st
  | PreviewAck t =>
      match r with
      | RAck => default (suspend pid Finished st)
                  (startProcessing t throws (suspend pid Finished st))
      | _ => st
      end
  | BadgeAwaitBaseUrl tab u force => resumeBadgeBaseUrl pid tab u force r st
  | BadgeAwaitResult tab => resumeBadgeResult pid tab r st
  | BadgeAwaitTab activated => resumeBadgeTab pid activated r st
  end.

(** One turn of the event loop. *)
Definition step (st : State) (i : Input) : State :=
  match i with
  | ShortcutsProcess t skipPreview throws =>
      if isHuntlyServer t
      then startProcessingWithShortcuts t skipPreview throws st
      else startProcessingWithVercelAI t throws st
  | ShortcutsCancel task => snd (shortcuts_cancel task st)
  | BadgeRefresh (Some tab) (Some u) =>
      if negb (tab =? 0)%Z && truthy u
      then updateBadgeForTab tab u true st
      else refreshBadgeForActiveTab st
  | BadgeRefresh _ _ => refreshBadgeForActiveTab st
  | TabUpdated tab complete changeUrl tabUrl =>
      tabs_onUpdated tab complete changeUrl tabUrl st
  | TabActivated tab =>
      suspend (length (activations st)) (BadgeAwaitTab (Some tab)) st
  | TabRemoved tab => snd (tabs_onRemoved tab st)
  | Settle pid r throws =>
      match activations st !! pid with
      | Some a => resume pid a r throws st
      | None => st
      end
  end.

(** The state after the turns [inputs], in order. *)
Definition run (st : State) (inputs : list Input) : State :=
  fold_left step inputs st.

End Worker.

(** ** The AI toolbar data *)

Module Toolbar.

(** An entry of [defaultModels] in [PROVIDER_REGISTRY]. *)
Record ModelMeta := {
  meta_id : jsstring;
  meta_name : jsstring;
}.

(** An entry of [PROVIDER_REGISTRY] ([ai/types]). *)
Record ProviderMeta := {
  displayName : jsstring;
  defaultModels : list ModelMeta;
}.

(** The interface [ModelItem] declared in [getAIToolbarData]. *)
Record ModelItem := {
  id : jsstring;
  name : jsstring;
  provider : jsstring;
  providerName : jsstring;
}.

(** What the awaited calls of [getAIToolbarData] resolve to, and the
    registry table it reads. *)
Record Env := {
  huntlyShortcutsEnabled : bool;
  baseUrl : jsstring;
  providers : gmap jsstring ProviderConfig;
  availableProviders : list jsstring;
  PROVIDER_REGISTRY : gmap jsstring ProviderMeta;
  effectiveDefaultProviderType : option jsstring;
}.

(** [externalModels] of the result. *)
Record ExternalModels := {
  models : list ModelItem;
  defaultModel : option ModelItem;
}.

Definition huntlyServerModel : ModelItem :=
  {| id := lit "huntly-server:default"; name := lit "Huntly AI";
     provider := lit "huntly-server"; providerName := lit "Huntly" |}.

(** The item pushed for [modelId] of [providerType]. *)
Definition modelItem (providerType : jsstring) (providerMeta : ProviderMeta)
    (modelId : jsstring) : ModelItem :=
  let modelMeta :=
    List.find (fun m => bool_decide (meta_id m = modelId))
      (defaultModels providerMeta) in
  {| id := providerType ++ lit ":" ++ modelId;
     name := match modelMeta with
             | Some m => orElse (meta_name m) modelId
             | None => modelId
             end;
     provider := providerType;
     providerName := displayName providerMeta |}.

(** The loop over [availableProviders], pushing onto [modelList]; [None]
    when [PROVIDER_REGISTRY] has no entry for a provider whose models are
    to be added (reading [defaultModels] of undefined throws). *)
Fixpoint addProviderModels (e : Env) (available : list jsstring)
    (modelList : list ModelItem) : option (list ModelItem) :=
  match available with
  | [] => Some modelList
  | providerType :: rest =>
      if bool_decide (providerType = lit "huntly-server")
      then addProviderModels e rest modelList
      else
        match providers e !! providerType with
        | Some config =>
            if enabled config && (0 <? length (enabledModels config))%nat then
              match PROVIDER_REGISTRY e !! providerType with
              | Some providerMeta =>
                  addProviderModels e rest
                    (modelList
                     ++ map (modelItem providerType providerMeta)
                          (enabledModels config))
              | None => None
              end
            else addProviderModels e rest modelList
        | None => addProviderModels e rest modelList
        end
  end.

(** The part of [getAIToolbarData] that determines the default model. *)
Definition resolveDefaultModel (modelList : list ModelItem)
    (defaultProviderType : option jsstring) : option ModelItem :=
  match modelList with
  | [] => None
  | first :: _ =>
      if truthyOpt defaultProviderType then
        match List.find
                (fun m => bool_decide (Some (provider m) = defaultProviderType))
                modelList with
        | Some m => Some m
        | None => Some first
        end
      else Some first
  end.

(** [getAIToolbarData()], as far as [externalModels] goes; [None] when the
    function throws. *)
Definition getAIToolbarData (e : Env) : option ExternalModels :=
  let modelList0 :=
    if truthy (baseUrl e) && huntlyShortcutsEnabled e
    then [huntlyServerModel] else [] in
  match addProviderModels e (availableProviders e) modelList0 with
  | Some modelList =>
      Some {| models := modelList;
              defaultModel :=
                resolveDefaultModel modelList (effectiveDefaultProviderType e) |}
  | None => None
  end.

End Toolbar.


(** ** Observations on a state *)

(** The messages activation [pid] has sent to tabs, in order. *)
Definition messagesBy (pid : nat) (tr : list (option nat * Effect))
    : list (Z * TabMessage) :=
  omap (fun x : option nat * Effect =>
          match x with
          | (Some who, SendMessage tab m) =>
              if decide (who = pid) then Some (tab, m) else None
          | _ => None
          end) tr.

Definition isProcessError (x : Z * TabMessage) : bool :=
  match snd x with
  | ShortcutsProcessError _ _ _ => true
  | _ => false
  end.

(** The processing-error messages activation [pid] has sent. *)
Definition errorsBy (pid : nat) (tr : list (option nat * Effect))
    : list (Z * TabMessage) :=
  List.filter isProcessError (messagesBy pid tr).

(** The urls looked up remotely so far, in order. *)
Definition remoteLookups (st : State) : list jsstring :=
  omap (fun x : option nat * Effect =>
          match snd x with
          | GetPageOperateResult u => Some u
          | _ => None
          end) (trace st).

(** Activation [a] is the direct-provider task that closed over controller
    [c], or has ended. *)
Definition ownedBy (c : nat) (a : Activation) : Prop :=
  match a with
  | Finished => True
  | Vercel _ c' _ => c' = c
  | _ => False
  end.

(** What a turn that is not run on behalf of a cancelled task leaves in
    place for the task [pid] with controller [c]: the abort flag stays set,
    the activation stays the task's, and the task sends no message. *)
Definition frame (pid c : nat) (st st' : State) : Prop :=
  (aborted c st = true -> aborted c st' = true) /\
  (forall a, activations st !! pid = Some a -> ownedBy c a ->
     exists a', activations st' !! pid = Some a' /\ ownedBy c a') /\
  messagesBy pid (trace st') = messagesBy pid (trace st).

(** A call other than a message to a tab, or made by another activation. *)
Definition silentFor (pid : nat) (who : option nat) (e : Effect) : Prop :=
  who <> Some pid \/ (forall tab m, e <> SendMessage tab m).

(** The registry of direct-provider tasks is well formed: every entry
    refers to an allocated controller, and no controller is registered
    under two task ids. *)
Definition registryOk (st : State) : Prop :=
  forall k c, vercelAIAbortControllers st !! k = Some c ->
    (c < length (controllers st))%nat /\
    forall k', vercelAIAbortControllers st !! k' = Some c -> k' = k.

(** A turn that registers nothing: controllers are only added, entries of
    the registry only removed. *)
Definition registryShrinks (st st' : State) : Prop :=
  (length (controllers st) <= length (controllers st'))%nat /\
  forall k c, vercelAIAbortControllers st' !! k = Some c ->
    vercelAIAbortControllers st !! k = Some c.

Section Scenarios.

Context `{Externals}.

(** Whether resuming a direct-provider task in phase [ph] with [r] is a
    failure: an awaited call is rejected, or the provider of the selected
    model is not configured, not enabled or yields no model. *)
Definition fails (t : Task) (ph : VercelPhase) (r : Response) : bool :=
  match ph, r with
  | _, RRejected _ => true
  | _, RRejectedNullish => true
  | AwaitProvidersStorage, RProvidersStorage providers =>
      match selectedModel t with
      | Some sm =>
          match providers !! sm_provider sm with
          | Some config =>
              negb (enabled config
                    && createProviderModel config (afterFirstColon (sm_id sm)))
          | None => true
          end
      | None => true
      end
  | _, _ => false
  end.

(** The settlement of a call that resolves to [x], or is rejected. *)
Definition settled {A} (f : A -> Response) (x : option A) : Response :=
  match x with
  | Some v => f v
  | None => RRejected None
  end.

(** A presence check run to its end with no other turn in between: the call
    of [updateBadgeForTab], then the settlement of [getApiBaseUrl()] with
    the base url [b] and of [getPageOperateResult(0, url)] with the answer
    [a] ([None] stands for a rejection, such as the server being offline). *)
Definition check (b : option jsstring) (a : option PageOperateResult)
    (tab : Z) (url : jsstring) (forceRefresh : bool) (st : State) : State :=
  let pid := length (activations st) in
  run (updateBadgeForTab tab url forceRefresh st)
    [Settle pid (settled RBaseUrl b) false;
     Settle pid (settled RPageOperateResult a) false].

(** Whether a presence check goes to the remote lookup: the url is an http
    or https url, a server base url is configured, and the check is forced
    or the cache does not hold the url for the tab. *)
Definition lookupDue (b : option jsstring) (tab : Z) (url : jsstring)
    (forceRefresh : bool) (st : State) : bool :=
  isHttpUrl url && truthyOpt b
  && (forceRefresh || negb (bool_decide (badgeCache st !! tab = Some url))).

End Scenarios.

(** ** Concrete scenarios *)

Definition francais : jsstring := [70; 114; 97; 110; 231; 97; 105; 115].

(** Externals for the scenarios: every configured provider yields a model,
    and the language code fr has the native name Français. *)
Definition scenarioExternals : Externals :=
  {| createProviderModel := fun _ _ => true;
     getLanguageNativeName :=
       fun code => if decide (code = lit "fr") then francais else code |}.


Definition openaiModel : SelectedModel :=
  {| sm_provider := lit "openai"; sm_id := lit "openai:gpt-4o" |}.

Definition huntlyModel : SelectedModel :=
  {| sm_provider := lit "huntly-server"; sm_id := lit "huntly-server:default" |}.

Definition scenarioTask (tab : Z) (task : string) (m : SelectedModel) : Task :=
  {| tabId := tab; taskId := lit task; shortcutName := lit "Translate";
     shortcutContent := Some (lit "Translate to {lang}");
     content := lit "body"; url := lit "https://example.org/a";
     title := lit "My Title"; selectedModel := Some m |}.

Definition scenarioProviders : gmap jsstring ProviderConfig :=
  {[ lit "openai" := {| enabled := true; enabledModels := [lit "gpt-4o"] |} ]}.

Definition scenarioSettings : PromptsSettings :=
  {| defaultTargetLanguage := Some (lit "fr") |}.

(** Two providers: anthropic, the default one, with no enabled model, and
    openai with two; no Huntly server is configured. *)
Definition scenarioToolbar : Toolbar.Env :=
  {| Toolbar.huntlyShortcutsEnabled := true;
     Toolbar.baseUrl := [];
     Toolbar.providers :=
       {[ lit "anthropic" := {| enabled := true; enabledModels := [] |};
          lit "openai" :=
            {| enabled := true;
               enabledModels := [lit "gpt-4o"; lit "gpt-4o-mini"] |} ]};
     Toolbar.availableProviders := [lit "anthropic"; lit "openai"];
     Toolbar.PROVIDER_REGISTRY :=
       {[ lit "anthropic" :=
            {| Toolbar.displayName := lit "Anthropic";
               Toolbar.defaultModels := [] |};
          lit "openai" :=
            {| Toolbar.displayName := lit "OpenAI";
               Toolbar.defaultModels :=
                 [ {| Toolbar.meta_id := lit "gpt-4o";
                      Toolbar.meta_name := lit "GPT-4o" |} ] |} ]};
     Toolbar.effectiveDefaultProviderType := Some (lit "anthropic") |}.

(** A direct-provider task and a managed-server task of tab 7. *)
Definition directTask : Task := scenarioTask 7 "t1" openaiModel.
Definition managedTask : Task := scenarioTask 7 "t2" huntlyModel.

(** Tab 7 with the direct-provider task streaming (activation 0, controller
    0) and the managed-server task started (activation 1, controller 1). *)
Definition streamingState : State :=
  @run scenarioExternals initial
    [ShortcutsProcess directTask false false;
     ShortcutsProcess managedTask true false;
     Settle 0 (RProvidersStorage scenarioProviders) false;
     Settle 0 (RPromptsSettings scenarioSettings) false;
     Settle 0 RStream false;
     Settle 0 (RChunk (lit "Bon")) false].

(** The same task id registered twice by direct-provider process commands. *)
Definition registeredTwice : State :=
  @run scenarioExternals initial
    [ShortcutsProcess directTask false false;
     ShortcutsProcess directTask false false].

Definition huntlyBase : jsstring := lit "https://huntly.example".
Definition urlA : jsstring := lit "https://example.org/a".
Definition urlB : jsstring := lit "https://example.org/b".
Definition internalPage : jsstring := lit "chrome://extensions".

(** ** Further observations *)

(** The data messages a task sends for the chunks [chunks], in order, when
    it has accumulated [acc] so far. *)
Fixpoint dataMessages (t : Task) (acc : jsstring) (chunks : list jsstring)
    : list (Z * TabMessage) :=
  match chunks with
  | [] => []
  | textPart :: rest =>
      (tabId t,
       ShortcutsProcessData textPart (acc ++ textPart) (shortcutName t) (taskId t))
      :: dataMessages t (acc ++ textPart) rest
  end.

(** The badge calls a presence check makes once the lookup is answered
    with [a]: the saved mark and its colour for a page with a positive id,
    an empty text otherwise. *)
Definition badgeCalls (a : option PageOperateResult) (tab : Z) : list Effect :=
  match a with
  | Some (PageData (Some id)) =>
      if (0 <? id)%Z
      then [SetBadgeText SAVED_BADGE_TEXT tab;
            SetBadgeBackgroundColor SAVED_BADGE_BG tab]
      else [SetBadgeText [] tab]
  | _ => [SetBadgeText [] tab]
  end.

(** ** The shortcuts of the AI toolbar data *)

(** Model [x] is an enabled model of an enabled provider that
    [getAvailableProviderTypes] lists and [PROVIDER_REGISTRY] describes. *)
Definition surfacedBy (e : Toolbar.Env) (x : Toolbar.ModelItem) : Prop :=
  exists p config meta m,
    p ∈ Toolbar.availableProviders e /\ p <> lit "huntly-server" /\
    Toolbar.providers e !! p = Some config /\ enabled config = true /\
    m ∈ enabledModels config /\
    Toolbar.PROVIDER_REGISTRY e !! p = Some meta /\
    x = Toolbar.modelItem p meta m.

(** The condition under which the Huntly server is used:
    [baseUrl && huntlyShortcutsEnabled]. *)
Definition huntlyServerUsed (e : Toolbar.Env) : bool :=
  truthy (Toolbar.baseUrl e) && Toolbar.huntlyShortcutsEnabled e.

Module Shortcuts.

(** A prompt of [promptsSettings.prompts], as far as the worker reads it. *)
Record PromptItem := {
  prompt_name : jsstring;
  prompt_content : jsstring;
  prompt_enabled : bool;
  isSystem : bool;
}.

(** [externalShortcuts] of the result of [getAIToolbarData]. *)
Record ExternalShortcuts := {
  userPrompts : list PromptItem;
  systemPrompts : list PromptItem;
  huntlyShortcuts : list jsstring;
  huntlyShortcutsEnabled : bool;
}.

(** The first part of [getAIToolbarData()]: the enabled prompts, split into
    the user's and the system's, and the shortcuts of the Huntly server,
    which are fetched only when a base url is configured and they are
    enabled.  [fetched] is what [fetchEnabledShortcuts()] resolves to, [None]
    when it is rejected (the error is logged and the list stays empty). *)
Definition externalShortcuts (prompts : list PromptItem) (e : Toolbar.Env)
    (fetched : option (list jsstring)) : ExternalShortcuts :=
  let enabledPrompts := List.filter prompt_enabled prompts in
  {| userPrompts := List.filter (fun p => negb (isSystem p)) enabledPrompts;
     systemPrompts := List.filter isSystem enabledPrompts;
     huntlyShortcuts :=
       if truthy (Toolbar.baseUrl e) && Toolbar.huntlyShortcutsEnabled e
       then default [] fetched else [];
     huntlyShortcutsEnabled := Toolbar.huntlyShortcutsEnabled e |}.

End Shortcuts.

(** ** Saving a page and opening its detail *)

Module SaveDetail.

(** The fields of [PageModel] the worker reads or writes; [content] stands
    for the fields that are only copied over. *)
Record PageModel := {
  title : jsstring;
  description : jsstring;
  url : jsstring;
  domain : jsstring;
  faviconUrl : jsstring;
  thumbUrl : jsstring;
  content : jsstring;
}.

(** The page of the detail the server returns; a missing field is the
    empty string. *)
Record DbPage := {
  db_title : jsstring;
  db_description : jsstring;
  db_url : jsstring;
  db_domain : jsstring;
  db_faviconUrl : jsstring;
  db_thumbUrl : jsstring;
}.

(** How an awaited call settles. *)
Inductive Outcome (A : Type) :=
| Fulfilled (a : A)
| Rejected (message : option jsstring).
Arguments Fulfilled {A} a.
Arguments Rejected {A} message.

(** The answer of [saveArticle], seen through [JSON.parse]: a falsy answer,
    one that does not parse (with the message of the error thrown), or the
    [data] of the parsed answer when it has one. *)
Inductive SaveResponse :=
| SaveEmpty
| SaveMalformed (message : jsstring)
| SaveParsed (data : option Z).

(** What the four awaited calls of the command settle with. *)
Record Answers := {
  saved : Outcome SaveResponse;
  libraryResult : Outcome jsstring;
  detail : Outcome (option DbPage);
  collectionTree : Outcome jsstring;
}.

(** The remote calls the command makes. *)
Inductive Call :=
| SaveArticle (page : PageModel)
| SavePageToLibrary (pageId : Z)
| GetPageDetail (pageId : Z)
| GetCollectionTree.

(** What is passed to [sendResponse]. *)
Inductive Reply :=
| Failure (error : jsstring)
| Success (pageId : Z) (operateResult tree : jsstring) (page : PageModel).

(** [(error as Error)?.message || 'save_detail_init failed']. *)
Definition caught (message : option jsstring) : Reply :=
  Failure (orElse (default [] message) (lit "save_detail_init failed")).

(** [detail?.page || {}]. *)
Definition dbPageOf (d : option DbPage) : DbPage :=
  default {| db_title := []; db_description := []; db_url := [];
             db_domain := []; db_faviconUrl := []; db_thumbUrl := [] |} d.

(** The page of the reply: the input page with six fields taken from the
    stored page where it has them. *)
Definition mergedPage (inputPage : PageModel) (dbPage : DbPage) : PageModel :=
  {| title := orElse (db_title dbPage) (title inputPage);
     description := orElse (db_description dbPage) (description inputPage);
     url := orElse (db_url dbPage) (url inputPage);
     domain := orElse (db_domain dbPage) (domain inputPage);
     faviconUrl := orElse (db_faviconUrl dbPage) (faviconUrl inputPage);
     thumbUrl := orElse (db_thumbUrl dbPage) (thumbUrl inputPage);
     content := content inputPage |}.

(** The [save_detail_init] branch of the message listener: the calls it
    makes, in order, and its reply.  [inputPage] is [data?.page]. *)
Definition save_detail_init (inputPage : option PageModel) (ans : Answers)
    : list Call * Reply :=
  let invalid :=
    Failure (lit "Invalid page data for save detail initialization.") in
  match inputPage with
  | None => ([], invalid)
  | Some page =>
      if negb (truthy (url page)) then ([], invalid)
      else
        match saved ans with
        | Rejected m => ([SaveArticle page], caught m)
        | Fulfilled SaveEmpty =>
            ([SaveArticle page], Failure (lit "Failed to save page."))
        | Fulfilled (SaveMalformed m) => ([SaveArticle page], caught (Some m))
        | Fulfilled (SaveParsed data) =>
            match data with
            | Some pageId =>
                if (0 <? pageId)%Z then
                  match libraryResult ans with
                  | Rejected m =>
                      ([SaveArticle page; SavePageToLibrary pageId], caught m)
                  | Fulfilled operateResult =>
                      match detail ans with
                      | Rejected m =>
                          ([SaveArticle page; SavePageToLibrary pageId;
                            GetPageDetail pageId], caught m)
                      | Fulfilled d =>
                          let calls :=
                            [SaveArticle page; SavePageToLibrary pageId;
                             GetPageDetail pageId; GetCollectionTree] in
                          match collectionTree ans with
                          | Rejected m => (calls, caught m)
                          | Fulfilled tree =>
                              (calls,
                               Success pageId operateResult tree
                                 (mergedPage page (dbPageOf d)))
                          end
                      end
                  end
                else ([SaveArticle page],
                      Failure (lit "Invalid page id from save API."))
            | None => ([SaveArticle page],
                       Failure (lit "Invalid page id from save API."))
            end
        end
  end.

End SaveDetail.

(** ** Further scenarios *)

(** The direct-provider task of tab 7 just started (activation 0). *)
Definition startedState : State :=
  @run scenarioExternals initial [ShortcutsProcess directTask false false].

Definition openaiConfig : ProviderConfig :=
  {| enabled := true; enabledModels := [lit "gpt-4o"; lit "gpt-4o-mini"] |}.

Definition openaiMeta : Toolbar.ProviderMeta :=
  {| Toolbar.displayName := lit "OpenAI";
     Toolbar.defaultModels :=
       [ {| Toolbar.meta_id := lit "gpt-4o";
            Toolbar.meta_name := lit "GPT-4o" |} ] |}.

(** The models [scenarioToolbar] gives. *)
Definition scenarioExternalModels : Toolbar.ExternalModels :=
  {| Toolbar.models := [Toolbar.modelItem (lit "openai") openaiMeta (lit "gpt-4o");
                        Toolbar.modelItem (lit "openai") openaiMeta (lit "gpt-4o-mini")];
     Toolbar.defaultModel :=
       Some (Toolbar.modelItem (lit "openai") openaiMeta (lit "gpt-4o")) |}.

(** A configured Huntly server with its shortcuts enabled and no provider. *)
Definition huntlyToolbar : Toolbar.Env :=
  {| Toolbar.huntlyShortcutsEnabled := true;
     Toolbar.baseUrl := huntlyBase;
     Toolbar.providers := ∅;
     Toolbar.availableProviders := [];
     Toolbar.PROVIDER_REGISTRY := ∅;
     Toolbar.effectiveDefaultProviderType := None |}.

Definition huntlyExternalModels : Toolbar.ExternalModels :=
  {| Toolbar.models := [Toolbar.huntlyServerModel];
     Toolbar.defaultModel := Some Toolbar.huntlyServerModel |}.

(** A page to save, and answers of the server: the save returns page id 12
    and the stored page has a title of its own. *)
Definition clippedPage : SaveDetail.PageModel :=
  {| SaveDetail.title := lit "Draft"; SaveDetail.description := [];
     SaveDetail.url := urlA; SaveDetail.domain := lit "example.org";
     SaveDetail.faviconUrl := []; SaveDetail.thumbUrl := [];
     SaveDetail.content := lit "body" |}.

Definition storedPage : SaveDetail.DbPage :=
  {| SaveDetail.db_title := lit "Stored"; SaveDetail.db_description := [];
     SaveDetail.db_url := []; SaveDetail.db_domain := [];
     SaveDetail.db_faviconUrl := []; SaveDetail.db_thumbUrl := [] |}.

Definition savedAnswers : SaveDetail.Answers :=
  {| SaveDetail.saved := SaveDetail.Fulfilled (SaveDetail.SaveParsed (Some 12%Z));
     SaveDetail.libraryResult := SaveDetail.Fulfilled (lit "{}");
     SaveDetail.detail := SaveDetail.Fulfilled (Some storedPage);
     SaveDetail.collectionTree := SaveDetail.Fulfilled (lit "[]") |}.

(** The same answers, with the library call rejected without a message. *)
Definition rejectedAnswers : SaveDetail.Answers :=
  {| SaveDetail.saved := SaveDetail.Fulfilled (SaveDetail.SaveParsed (Some 12%Z));
     SaveDetail.libraryResult := SaveDetail.Rejected None;
     SaveDetail.detail := SaveDetail.Fulfilled (Some storedPage);
     SaveDetail.collectionTree := SaveDetail.Fulfilled (lit "[]") |}.
(** * Properties *)

(** ** Strings *)

Example replaceLang_two :
  replaceLang (lit "{lang}: say it in {lang}!") (lit "Deutsch")
  = lit "Deutsch: say it in Deutsch!".
Proof. vm_compute. reflexivity. Qed.

Example replaceLang_dollar :
  replaceLang (lit "to {lang}.") (lit "<$&|$$|$`|$'|$1>")
  = lit "to <{lang}|$|to |.|$1>.".
Proof. vm_compute. reflexivity. Qed.

Example prepare_ex :
  prepareMarkdownContent (lit "body") (Some (lit "My Title"))
  = lit "# My Title" ++ [10; 10] ++ lit "body".
Proof. vm_compute. reflexivity. Qed.



Lemma trimStart_blank s : truthy (trimStart s) = negb (blank s).
Proof.
  induction s as [|c s IH]; simpl; [reflexivity|].
  destruct (isWhiteSpace c); simpl; [exact IH | reflexivity].
Qed.

Lemma truthy_rev (s : jsstring) : truthy (rev s) = truthy s.
Proof.
  destruct s as [|c s]; simpl; [reflexivity|].
  destruct (rev s); reflexivity.
Qed.

Lemma blank_app s1 s2 : blank (s1 ++ s2) = blank s1 && blank s2.
Proof. apply forallb_app. Qed.

Lemma blank_rev s : blank (rev s) = blank s.
Proof.
  induction s as [|c s IH]; simpl; [reflexivity|].
  rewrite blank_app, IH. simpl. rewrite andb_true_r. apply andb_comm.
Qed.

Lemma blank_trimStart s : blank (trimStart s) = blank s.
Proof.
  induction s as [|c s IH]; simpl; [reflexivity|].
  destruct (isWhiteSpace c) eqn:E; simpl; [exact IH | now rewrite E].
Qed.

(** [s.trim()] is truthy exactly when [s] has a code unit that is not
    white space. *)
Lemma truthy_trim s : truthy (trim s) = negb (blank s).
Proof.
  unfold trim, trimEnd.
  rewrite truthy_rev, trimStart_blank, blank_rev, blank_trimStart.
  reflexivity.
Qed.

Lemma blank_truthy s : blank s = false -> truthy s = true.
Proof. destruct s; [discriminate | reflexivity]. Qed.

Lemma prepareMarkdownContent_spec markdownContent t :
  prepareMarkdownContent markdownContent (Some t)
  = if blank t then markdownContent
    else lit "# " ++ t ++ [10; 10] ++ markdownContent.
Proof.
  unfold prepareMarkdownContent. rewrite truthy_trim.
  destruct (blank t) eqn:E; simpl.
  - now rewrite andb_false_r.
  - now rewrite (blank_truthy _ E).
Qed.











(** ** Framing: what a turn leaves in place for a task *)

Lemma messagesBy_app pid tr1 tr2 :
  messagesBy pid (tr1 ++ tr2) = messagesBy pid tr1 ++ messagesBy pid tr2.
Proof. apply omap_app. Qed.

Lemma frame_refl pid c st : frame pid c st st.
Proof. repeat split; eauto. Qed.

Lemma frame_trans pid c st1 st2 st3 :
  frame pid c st1 st2 -> frame pid c st2 st3 -> frame pid c st1 st3.
Proof.
  intros (Ha & Hb & Hm) (Ha' & Hb' & Hm'). repeat split.
  - auto.
  - intros a Hl Ho. destruct (Hb a Hl Ho) as (a' & Hl' & Ho'). eauto.
  - congruence.
Qed.

Lemma frame_emit pid c st st1 who e :
  silentFor pid who e -> frame pid c st st1 -> frame pid c st (emit who e st1).
Proof.
  intros Hs Hf. eapply frame_trans; [exact Hf|]. repeat split; eauto.
  cbn [emit trace]. rewrite messagesBy_app. cbn.
  destruct who as [w|]; [|now rewrite app_nil_r].
  destruct e; try now rewrite app_nil_r.
  destruct (decide (w = pid)) as [->|]; [|now rewrite app_nil_r].
  destruct Hs as [Hs|Hs]; [congruence | exfalso; eapply Hs; reflexivity].
Qed.

Lemma frame_suspend pid c st st1 pid' a :
  pid' <> pid \/ ownedBy c a ->
  frame pid c st st1 -> frame pid c st (suspend pid' a st1).
Proof.
  intros Hs Hf. eapply frame_trans; [exact Hf|]. repeat split; eauto.
  intros a0 Hl Ho. cbn [suspend withActivations activations].
  destruct (decide (pid' < length (activations st1))%nat) as [Hlt|Hge].
  - destruct (decide (pid' = pid)) as [->|Hne].
    + exists a. split; [now apply list_lookup_insert_eq|].
      destruct Hs as [Hs|Hs]; [congruence | exact Hs].
    + exists a0. split; [|exact Ho]. now rewrite list_lookup_insert_ne.
  - exists a0. split; [|exact Ho]. now apply lookup_app_l_Some.
Qed.

Lemma frame_abort pid c st st1 c' :
  frame pid c st st1 -> frame pid c st (abort c' st1).
Proof.
  intros Hf. eapply frame_trans; [exact Hf|]. repeat split; eauto.
  unfold aborted, abort. cbn. intros Ha.
  destruct (controllers st1 !! c) as [b|] eqn:E; [|discriminate].
  cbn in Ha. subst b.
  destruct (decide (c' = c)) as [->|Hne].
  - rewrite list_lookup_insert_eq; [reflexivity|]. now apply lookup_lt_Some in E.
  - rewrite list_lookup_insert_ne by exact Hne. now rewrite E.
Qed.

Lemma frame_newAbortController pid c st st1 :
  frame pid c st st1 ->
  frame pid c st (withControllers (fun h => h ++ [false]) st1).
Proof.
  intros Hf. eapply frame_trans; [exact Hf|]. repeat split; eauto.
  unfold aborted. cbn. intros Ha.
  destruct (controllers st1 !! c) as [b|] eqn:E; [|discriminate].
  now rewrite (lookup_app_l_Some _ _ _ _ E).
Qed.

Lemma frame_withVercel pid c st st1 f :
  frame pid c st st1 -> frame pid c st (withVercel f st1).
Proof. intros Hf. eapply frame_trans; [exact Hf|]. repeat split; eauto. Qed.

Lemma frame_withBadgeCache pid c st st1 f :
  frame pid c st st1 -> frame pid c st (withBadgeCache f st1).
Proof. intros Hf. eapply frame_trans; [exact Hf|]. repeat split; eauto. Qed.

Lemma frame_withSse pid c st st1 f :
  frame pid c st st1 -> frame pid c st (withSse f st1).
Proof. intros Hf. eapply frame_trans; [exact Hf|]. repeat split; eauto. Qed.

Lemma frame_abort_all pid c st st1 (l : list (jsstring * (Z * nat))) :
  frame pid c st st1 ->
  frame pid c st (foldr (fun kv s => abort (snd (snd kv)) s) st1 l).
Proof.
  intros Hf. induction l as [|kv l IH]; [exact Hf|].
  cbn [foldr]. now apply frame_abort.
Qed.

(** *** Projections through the state updates *)

Lemma activations_emit who e st : activations (emit who e st) = activations st.
Proof. reflexivity. Qed.
Lemma activations_withControllers f st :
  activations (withControllers f st) = activations st.
Proof. reflexivity. Qed.
Lemma activations_abort c st : activations (abort c st) = activations st.
Proof. reflexivity. Qed.
Lemma activations_withVercel f st : activations (withVercel f st) = activations st.
Proof. reflexivity. Qed.
Lemma activations_withBadgeCache f st :
  activations (withBadgeCache f st) = activations st.
Proof. reflexivity. Qed.
Lemma activations_withSse f st : activations (withSse f st) = activations st.
Proof. reflexivity. Qed.

Lemma length_activations_suspend pid a st :
  (length (activations st) <= length (activations (suspend pid a st)))%nat.
Proof.
  cbn. case_decide.
  - now rewrite length_insert.
  - rewrite length_app. lia.
Qed.

Lemma aborted_emit c who e st : aborted c (emit who e st) = aborted c st.
Proof. reflexivity. Qed.
Lemma aborted_suspend c pid a st : aborted c (suspend pid a st) = aborted c st.
Proof. reflexivity. Qed.
Lemma aborted_withVercel c f st : aborted c (withVercel f st) = aborted c st.
Proof. reflexivity. Qed.
Lemma aborted_withBadgeCache c f st : aborted c (withBadgeCache f st) = aborted c st.
Proof. reflexivity. Qed.
Lemma aborted_withSse c f st : aborted c (withSse f st) = aborted c st.
Proof. reflexivity. Qed.

Create Rewrite HintDb proj.

#[local] Hint Rewrite activations_emit activations_withControllers
  activations_abort activations_withVercel activations_withBadgeCache
  activations_withSse aborted_emit aborted_suspend aborted_withVercel
  aborted_withBadgeCache aborted_withSse : proj.

Lemma frame_live pid c st0 st a :
  activations st0 !! pid = Some a -> ownedBy c a -> frame pid c st0 st ->
  (pid < length (activations st))%nat.
Proof.
  intros Hl Ho (_ & Hb & _). destruct (Hb a Hl Ho) as (a' & Hl' & _).
  now apply lookup_lt_Some in Hl'.
Qed.

#[local] Arguments suspend : simpl never.
#[local] Arguments emit : simpl never.
#[local] Arguments abort : simpl never.
#[local] Arguments withVercel : simpl never.
#[local] Arguments withBadgeCache : simpl never.
#[local] Arguments withSse : simpl never.
#[local] Arguments withControllers : simpl never.
#[local] Arguments aborted : simpl never.

(** Side conditions of the framing lemmas. *)
Ltac frame_side :=
  autorewrite with proj in *;
  solve
    [ left; lia
    | left; congruence
    | left; intros [= ?]; lia
    | right; intros; discriminate
    | right; exact I
    | right; reflexivity
    | right; assumption ].

(** Peel the state updates off a framing goal. *)
Ltac frame_peel :=
  repeat first
    [ assumption
    | apply frame_refl
    | apply frame_suspend; [frame_side|]
    | apply frame_emit; [frame_side|]
    | apply frame_abort
    | apply frame_abort_all
    | apply frame_newAbortController
    | apply frame_withVercel
    | apply frame_withBadgeCache
    | apply frame_withSse ].

Section Framing.

Context `{Externals}.

Variables (pid c : nat) (st0 : State) (a0 : Activation).
Hypothesis Hlive : activations st0 !! pid = Some a0.
Hypothesis Howned : ownedBy c a0.

Lemma frame_updateBadgeForTab tab u force st :
  frame pid c st0 st -> frame pid c st0 (updateBadgeForTab tab u force st).
Proof.
  intros Hf. pose proof (frame_live _ _ _ _ _ Hlive Howned Hf) as Hlt.
  unfold updateBadgeForTab, clearBadge. case_match; frame_peel.
Qed.

Lemma frame_startProcessingWithVercelAI t throws st :
  frame pid c st0 st -> frame pid c st0 (startProcessingWithVercelAI t throws st).
Proof.
  intros Hf. pose proof (frame_live _ _ _ _ _ Hlive Howned Hf) as Hlt.
  unfold startProcessingWithVercelAI, sendMessage. cbn.
  destruct throws; frame_peel.
Qed.

Lemma frame_startProcessing t throws st st' :
  frame pid c st0 st -> startProcessing t throws st = Some st' ->
  frame pid c st0 st'.
Proof.
  intros Hf. pose proof (frame_live _ _ _ _ _ Hlive Howned Hf) as Hlt.
  unfold startProcessing, sendMessage,
    sseRequestManager.processContentWithShortcutStream. cbn.
  destruct throws; intros [= <-]. frame_peel.
Qed.

Lemma frame_startProcessingWithShortcuts t skipPreview throws st :
  frame pid c st0 st ->
  frame pid c st0 (startProcessingWithShortcuts t skipPreview throws st).
Proof.
  intros Hf. pose proof (frame_live _ _ _ _ _ Hlive Howned Hf) as Hlt.
  unfold startProcessingWithShortcuts. destruct skipPreview.
  - destruct (startProcessing t throws st) as [st'|] eqn:E; cbn; [|exact Hf].
    eapply frame_startProcessing; eauto.
  - unfold sendMessage. destruct throws; frame_peel.
Qed.

Lemma frame_sse_cancelTask task st :
  frame pid c st0 st ->
  frame pid c st0 (snd (sseRequestManager.cancelTask task st)).
Proof.
  intros Hf. unfold sseRequestManager.cancelTask.
  destruct (sseTasks st !! task) as [[? ?]|]; cbn; frame_peel.
Qed.

Lemma frame_cancelVercelAITask task st :
  frame pid c st0 st -> frame pid c st0 (snd (cancelVercelAITask task st)).
Proof.
  intros Hf. unfold cancelVercelAITask.
  destruct (vercelAIAbortControllers st !! task); cbn; frame_peel.
Qed.

Lemma frame_shortcuts_cancel task st :
  frame pid c st0 st -> frame pid c st0 (snd (shortcuts_cancel task st)).
Proof.
  intros Hf. unfold shortcuts_cancel.
  pose proof (frame_sse_cancelTask task st Hf) as H1.
  destruct (sseRequestManager.cancelTask task st) as [b1 st1]. cbn in H1.
  pose proof (frame_cancelVercelAITask task st1 H1) as H2.
  destruct (cancelVercelAITask task st1) as [b2 st2]. exact H2.
Qed.

Lemma frame_tabs_onRemoved tab st :
  frame pid c st0 st -> frame pid c st0 (snd (tabs_onRemoved tab st)).
Proof.
  intros Hf. unfold tabs_onRemoved, sseRequestManager.cancelTasksByTabId.
  cbn. frame_peel.
Qed.

Lemma frame_tabs_onUpdated tab complete changeUrl tabUrl st :
  frame pid c st0 st ->
  frame pid c st0 (tabs_onUpdated tab complete changeUrl tabUrl st).
Proof.
  intros Hf. unfold tabs_onUpdated.
  repeat case_match;
    repeat first [apply frame_updateBadgeForTab | progress frame_peel].
Qed.

Lemma frame_refreshBadgeForActiveTab st :
  frame pid c st0 st -> frame pid c st0 (refreshBadgeForActiveTab st).
Proof.
  intros Hf. pose proof (frame_live _ _ _ _ _ Hlive Howned Hf) as Hlt.
  unfold refreshBadgeForActiveTab. frame_peel.
Qed.

(** Resuming another activation. *)
Lemma frame_resume_other pid' a r throws st :
  pid' <> pid -> frame pid c st0 st ->
  frame pid c st0 (resume pid' a r throws st).
Proof.
  intros Hne Hf. pose proof (frame_live _ _ _ _ _ Hlive Howned Hf) as Hlt.
  destruct a as [|t c' ph|t c' acc|t|tab u force|tab|activated]; cbn [resume].
  - exact Hf.
  - unfold resumeVercel, vercelCatch, vercelAfterLoop, sendMessage.
    destruct throws; cbn [from_option id];
      repeat case_match; frame_peel.
  - unfold resumeSse, sendMessage, sseRequestManager.remove.
    destruct throws; cbn [from_option id]; repeat case_match;
      repeat first [apply frame_sse_cancelTask | progress frame_peel].
  - destruct r; try exact Hf.
    assert (Hf' : frame pid c st0 (suspend pid' Finished st)) by frame_peel.
    destruct (startProcessing t throws (suspend pid' Finished st)) as [st'|] eqn:E;
      cbn [from_option id]; [|exact Hf'].
    eapply frame_startProcessing; eauto.
  - unfold resumeBadgeBaseUrl, clearBadge. repeat case_match; frame_peel.
  - unfold resumeBadgeResult, clearBadge. repeat case_match; frame_peel.
  - unfold resumeBadgeTab.
    repeat case_match;
      repeat first [apply frame_updateBadgeForTab | progress frame_peel].
Qed.

(** Resuming the task itself once its controller is aborted. *)
Lemma frame_resume_aborted t ph r throws st :
  aborted c st = true -> frame pid c st0 st ->
  frame pid c st0 (resumeVercel pid t c ph r throws st).
Proof.
  intros Ha Hf.
  unfold resumeVercel, vercelCatch, vercelAfterLoop, sendMessage.
  autorewrite with proj. rewrite Ha. cbn [negb].
  destruct throws; cbn [from_option id]; repeat case_match; frame_peel.
Qed.

(** A turn that does not resume the task. *)
Lemma frame_step_other i :
  (forall r throws, i <> Settle pid r throws) -> frame pid c st0 (step st0 i).
Proof.
  intros Hi. pose proof (frame_refl pid c st0) as Hf.
  destruct i as [t skip throws|task|tab u|tab complete cu tu|tab|tab|pid' r throws];
    cbn [step].
  - case_match;
      [now apply frame_startProcessingWithShortcuts
      | now apply frame_startProcessingWithVercelAI].
  - now apply frame_shortcuts_cancel.
  - repeat case_match;
      first [now apply frame_updateBadgeForTab
            | now apply frame_refreshBadgeForActiveTab].
  - now apply frame_tabs_onUpdated.
  - pose proof (frame_live _ _ _ _ _ Hlive Howned Hf) as Hlt. frame_peel.
  - now apply frame_tabs_onRemoved.
  - destruct (activations st0 !! pid') as [a|]; [|exact Hf].
    apply frame_resume_other; [|exact Hf]. intros ->. now apply (Hi r throws).
Qed.

(** Any turn, once the controller of the task is aborted. *)
Lemma frame_step_aborted i :
  aborted c st0 = true -> frame pid c st0 (step st0 i).
Proof.
  intros Ha.
  destruct i as [t skip throws|task|tab u|tab complete cu tu|tab|tab|pid' r throws];
    try (apply frame_step_other; intros; discriminate).
  destruct (decide (pid' = pid)) as [->|Hne];
    [|apply frame_step_other; congruence].
  cbn [step]. rewrite Hlive.
  destruct a0 as [|t c' ph| | | | |]; try contradiction; cbn [resume].
  - apply frame_refl.
  - cbn in Howned. subst c'. apply frame_resume_aborted; [exact Ha|apply frame_refl].
Qed.

End Framing.

Lemma trace_emit who e st : trace (emit who e st) = trace st ++ [(who, e)].
Proof. reflexivity. Qed.
Lemma trace_suspend pid a st : trace (suspend pid a st) = trace st.
Proof. reflexivity. Qed.
Lemma trace_withVercel f st : trace (withVercel f st) = trace st.
Proof. reflexivity. Qed.
Lemma trace_withBadgeCache f st : trace (withBadgeCache f st) = trace st.
Proof. reflexivity. Qed.
Lemma trace_withSse f st : trace (withSse f st) = trace st.
Proof. reflexivity. Qed.
Lemma trace_withControllers f st : trace (withControllers f st) = trace st.
Proof. reflexivity. Qed.
Lemma trace_abort c st : trace (abort c st) = trace st.
Proof. reflexivity. Qed.

#[local] Hint Rewrite trace_emit trace_suspend trace_withVercel
  trace_withBadgeCache trace_withSse trace_withControllers trace_abort : proj.

Lemma errorsBy_app pid tr1 tr2 :
  errorsBy pid (tr1 ++ tr2) = errorsBy pid tr1 ++ errorsBy pid tr2.
Proof. unfold errorsBy. now rewrite messagesBy_app, List.filter_app. Qed.

Lemma errorsBy_messagesBy pid tr1 tr2 :
  messagesBy pid tr1 = messagesBy pid tr2 -> errorsBy pid tr1 = errorsBy pid tr2.
Proof. unfold errorsBy. now intros ->. Qed.

Section Cancellation.

Context `{Externals}.

(** Once the controller of a task is aborted, the task sends nothing to
    its tab, whatever turns follow. *)
Lemma run_frame_aborted pid c inputs : forall st a,
  activations st !! pid = Some a -> ownedBy c a -> aborted c st = true ->
  frame pid c st (run st inputs).
Proof.
  induction inputs as [|i inputs IH]; intros st a Hl Ho Ha; [apply frame_refl|].
  cbn [run fold_left].
  pose proof (frame_step_aborted pid c st a Hl Ho i Ha) as Hf.
  destruct Hf as (Hf1 & Hf2 & Hf3).
  destruct (Hf2 a Hl Ho) as (a' & Hl' & Ho').
  apply frame_trans with (step st i); [repeat split; eauto|].
  apply (IH _ a' Hl' Ho' (Hf1 Ha)).
Qed.

(** C3: once the abort signal of a direct-provider task is set, the task
    delivers no further callback to its tab: however the event loop goes on
    (chunks that still arrive, the end of the stream, its failure), the
    messages the task has sent stay what they were, so no chunk is forwarded
    and neither the result nor the error message is sent. *)
Theorem no_callbacks_after_abort st pid t c ph inputs :
  activations st !! pid = Some (Vercel t c ph) ->
  aborted c st = true ->
  messagesBy pid (trace (run st inputs)) = messagesBy pid (trace st).
Proof.
  intros Hl Ha.
  now destruct (run_frame_aborted pid c inputs st _ Hl eq_refl Ha) as (_ & _ & Hm).
Qed.

(** A step of the task that is not a failure sends no error message. *)
Lemma resumeVercel_no_error pid t c ph r throws st :
  fails t ph r = false ->
  errorsBy pid (trace (resumeVercel pid t c ph r throws st))
  = errorsBy pid (trace st).
Proof.
  intros Hf.
  unfold resumeVercel, fails, vercelAfterLoop, sendMessage in *.
  destruct throws; cbn [from_option id];
    repeat case_match; try discriminate; simplify_eq;
    repeat (autorewrite with proj; cbn [from_option id]);
    rewrite ?errorsBy_app; cbn; rewrite ?app_nil_r; try reflexivity;
    case_decide; cbn; now rewrite ?app_nil_r.
Qed.

(** A rejection with [undefined] or [null] sends nothing. *)
Lemma resumeVercel_nullish pid t c ph throws st :
  trace (resumeVercel pid t c ph RRejectedNullish throws st) = trace st.
Proof.
  unfold resumeVercel, vercelCatch.
  destruct ph; autorewrite with proj; case_match; now autorewrite with proj.
Qed.

(** A step in which sending throws sends no message. *)
Lemma resumeVercel_send_throws pid t c ph r st :
  messagesBy pid (trace (resumeVercel pid t c ph r true st))
  = messagesBy pid (trace st).
Proof.
  unfold resumeVercel, vercelCatch, vercelAfterLoop, sendMessage.
  cbn [from_option id]; repeat case_match; simplify_eq;
    repeat (autorewrite with proj; cbn [from_option id]);
    rewrite ?messagesBy_app; cbn; now rewrite ?app_nil_r.
Qed.

(** A failure of a task that is not cancelled is reported to the tab,
    unless it is a rejection with [undefined] or [null]. *)
Lemma resumeVercel_error pid t c ph r st :
  aborted c st = false -> fails t ph r = true -> r <> RRejectedNullish ->
  exists message,
    trace (resumeVercel pid t c ph r false st)
    = trace st ++ [(Some pid, SendMessage (tabId t)
                     (ShortcutsProcessError message (shortcutName t) (taskId t)))].
Proof.
  intros Ha Hf Hr.
  unfold resumeVercel, fails, vercelCatch, sendMessage in *.
  repeat case_match; try discriminate; simplify_eq;
    autorewrite with proj in *; try congruence;
    cbn [from_option id]; autorewrite with proj; eauto.
Qed.

(** C4: cancelling a direct-provider task is not an error.  Once the
    abort signal is set the task never sends a processing-error message,
    whatever the stream does afterwards (its rejection included); a turn in
    which the task does send one is the settlement of one of its awaited
    calls as a failure while the task is not cancelled; and such a failure
    is reported when the rejection is not with [undefined] or [null] and
    sending does not throw. *)
Theorem cancellation_is_not_an_error st pid t c ph :
  activations st !! pid = Some (Vercel t c ph) ->
  (aborted c st = true -> forall inputs,
     errorsBy pid (trace (run st inputs)) = errorsBy pid (trace st)) /\
  (forall i,
     errorsBy pid (trace (step st i)) <> errorsBy pid (trace st) ->
     aborted c st = false /\
     exists r, i = Settle pid r false /\ fails t ph r = true
               /\ r <> RRejectedNullish) /\
  (forall r, aborted c st = false -> fails t ph r = true ->
     r <> RRejectedNullish ->
     exists message,
       errorsBy pid (trace (step st (Settle pid r false)))
       = errorsBy pid (trace st)
         ++ [(tabId t, ShortcutsProcessError message (shortcutName t) (taskId t))]).
Proof.
  intros Hl. split; [|split].
  - intros Ha inputs. apply errorsBy_messagesBy.
    now destruct (run_frame_aborted pid c inputs st _ Hl eq_refl Ha) as (_ & _ & Hm).
  - intros i Hne.
    destruct (aborted c st) eqn:Ha.
    { exfalso. apply Hne, errorsBy_messagesBy.
      now destruct (frame_step_aborted pid c st _ Hl eq_refl i Ha) as (_ & _ & Hm). }
    split; [reflexivity|].
    assert (Hother : (forall r throws, i <> Settle pid r throws) -> False).
    { intros Hi. apply Hne, errorsBy_messagesBy.
      now destruct (frame_step_other pid c st _ Hl eq_refl i Hi) as (_ & _ & Hm). }
    destruct i as [| | | | | |pid' r throws];
      try (exfalso; apply Hother; intros; discriminate).
    destruct (decide (pid' = pid)) as [->|Hp];
      [|exfalso; apply Hother; congruence].
    cbn [step] in Hne. rewrite Hl in Hne. cbn [resume] in Hne.
    destruct throws.
    { exfalso. apply Hne, errorsBy_messagesBy, resumeVercel_send_throws. }
    exists r. split; [reflexivity|]. split.
    + destruct (fails t ph r) eqn:Hf; [reflexivity|].
      exfalso. apply Hne. now apply resumeVercel_no_error.
    + intros ->. apply Hne. now rewrite resumeVercel_nullish.
  - intros r Ha Hf Hr. cbn [step]. rewrite Hl. cbn [resume].
    destruct (resumeVercel_error pid t c ph r st Ha Hf Hr) as (message & ->).
    exists message. rewrite errorsBy_app. f_equal.
    unfold errorsBy. cbn. rewrite decide_True by reflexivity. reflexivity.
Qed.

End Cancellation.

(** ** The badge cache *)

Lemma remoteLookups_emit who e st :
  remoteLookups (emit who e st)
  = remoteLookups st ++ match e with
                        | GetPageOperateResult u => [u]
                        | _ => []
                        end.
Proof.
  unfold remoteLookups. rewrite trace_emit, omap_app. cbn.
  destruct e; reflexivity.
Qed.
Lemma remoteLookups_suspend pid a st :
  remoteLookups (suspend pid a st) = remoteLookups st.
Proof. reflexivity. Qed.
Lemma remoteLookups_withBadgeCache f st :
  remoteLookups (withBadgeCache f st) = remoteLookups st.
Proof. reflexivity. Qed.
Lemma badgeCache_emit who e st : badgeCache (emit who e st) = badgeCache st.
Proof. reflexivity. Qed.
Lemma badgeCache_suspend pid a st : badgeCache (suspend pid a st) = badgeCache st.
Proof. reflexivity. Qed.
Lemma badgeCache_withBadgeCache f st :
  badgeCache (withBadgeCache f st) = f (badgeCache st).
Proof. reflexivity. Qed.

Lemma lookup_suspend pid a st :
  (pid <= length (activations st))%nat ->
  activations (suspend pid a st) !! pid = Some a.
Proof.
  intros Hle. unfold suspend, withActivations. cbn. case_decide.
  - now apply list_lookup_insert_eq.
  - assert (pid = length (activations st)) as -> by lia.
    apply list_lookup_middle. reflexivity.
Qed.

Lemma length_suspend pid a st :
  (pid <= length (activations st))%nat ->
  (pid < length (activations (suspend pid a st)))%nat.
Proof. intros Hle. eapply lookup_lt_Some, lookup_suspend, Hle. Qed.

#[local] Hint Rewrite remoteLookups_emit remoteLookups_suspend
  remoteLookups_withBadgeCache badgeCache_emit badgeCache_suspend
  badgeCache_withBadgeCache : proj.

Lemma isHttpUrl_guard u :
  negb (truthy u) || (negb (startsWith (lit "http://") u)
                      && negb (startsWith (lit "https://") u))
  = negb (isHttpUrl u).
Proof.
  unfold isHttpUrl. destruct u as [|x u]; [reflexivity|].
  cbn [truthy negb orb]. now rewrite negb_orb.
Qed.

Section Badge.

Context `{Externals}.

(** The lookup branch of [updateBadgeForTab]: what the state is when the
    activation is suspended on [getPageOperateResult], if it gets there. *)
Lemma resumeBadgeBaseUrl_cases pid tab u force b st :
  (pid <= length (activations st))%nat ->
  let st1 := resumeBadgeBaseUrl pid tab u force b st in
  (remoteLookups st1 = remoteLookups st /\ badgeCache st1 = badgeCache st /\
   (activations st1 !! pid = Some Finished \/ st1 = st)) \/
  (remoteLookups st1 = remoteLookups st ++ [u] /\
   badgeCache st1 = <[tab := u]> (badgeCache st) /\
   activations st1 !! pid = Some (BadgeAwaitResult tab) /\
   (exists baseUrl, b = RBaseUrl baseUrl /\ truthy baseUrl = true) /\
   (force = true \/ badgeCache st !! tab <> Some u)).
Proof.
  intros Hle. unfold resumeBadgeBaseUrl, clearBadge.
  destruct b; try (left; repeat split; auto; fail).
  - destruct (truthy baseUrl) eqn:Hb; cbn [negb].
    + destruct force; cbn [negb andb].
      * right. autorewrite with proj. repeat split; eauto.
        now apply lookup_suspend.
      * case_bool_decide as Hc.
        -- left. autorewrite with proj. repeat split; auto.
           left. now apply lookup_suspend.
        -- right. autorewrite with proj. repeat split; eauto.
           now apply lookup_suspend.
    + left. autorewrite with proj. rewrite app_nil_r. repeat split; auto.
      left. now apply lookup_suspend.
  - left. autorewrite with proj. rewrite app_nil_r. repeat split; auto.
    left. now apply lookup_suspend.
  - left. autorewrite with proj. rewrite app_nil_r. repeat split; auto.
    left. now apply lookup_suspend.
Qed.

(** Settling the lookup touches neither the cache nor the lookups. *)
Lemma resumeBadgeResult_keeps pid tab a st :
  remoteLookups (resumeBadgeResult pid tab a st) = remoteLookups st /\
  badgeCache (resumeBadgeResult pid tab a st) = badgeCache st.
Proof.
  unfold resumeBadgeResult, clearBadge.
  repeat case_match; autorewrite with proj; rewrite ?app_nil_r; auto.
Qed.

(** What a presence check does to the lookups and to the cache. *)
Lemma check_spec b a tab u force st :
  remoteLookups (check b a tab u force st)
  = remoteLookups st ++ (if lookupDue b tab u force st then [u] else []) /\
  badgeCache (check b a tab u force st)
  = if lookupDue b tab u force st then <[tab := u]> (badgeCache st)
    else badgeCache st.
Proof.
  unfold check, lookupDue, updateBadgeForTab. rewrite isHttpUrl_guard.
  destruct (isHttpUrl u); cbn [negb andb run fold_left step].
  - rewrite lookup_suspend by lia. cbn [resume].
    unfold resumeBadgeBaseUrl, clearBadge.
    destruct b as [base|]; cbn [settled truthyOpt].
    + destruct (truthy base); cbn [negb andb].
      * autorewrite with proj.
        destruct force; cbn [negb andb orb]; [|case_bool_decide; cbn [negb]].
        all: rewrite lookup_suspend
          by (autorewrite with proj; apply Nat.lt_le_incl, length_suspend; lia).
        all: cbn [resume];
          pose proof (resumeBadgeResult_keeps (length (activations st)) tab
                        (settled RPageOperateResult a)) as Hk.
        all: try (match goal with
                  | |- context [resumeBadgeResult _ _ _ ?s] =>
                      destruct (Hk s) as [-> ->]
                  end; now autorewrite with proj).
        autorewrite with proj. now rewrite app_nil_r.
      * rewrite lookup_suspend
          by (autorewrite with proj; apply Nat.lt_le_incl, length_suspend; lia).
        cbn [resume]. autorewrite with proj. now rewrite !app_nil_r.
    + rewrite lookup_suspend
        by (autorewrite with proj; apply Nat.lt_le_incl, length_suspend; lia).
      cbn [resume]. autorewrite with proj. now rewrite !app_nil_r.
  - unfold clearBadge. rewrite lookup_suspend by (autorewrite with proj; lia).
    cbn [resume].
    rewrite lookup_suspend by (autorewrite with proj; lia).
    cbn [resume]. autorewrite with proj. now rewrite app_nil_r.
Qed.

(** C6, as the code has it: a second check of the url the cache holds for
    the tab, not forced, performs no remote lookup; for an http or https url
    and a configured server base url, a check of a url other than the cached
    one performs the lookup even when it is not forced, and a forced check
    performs it in any case.  So of the checks of url A, of A again and of
    url B, none forced, the second performs no lookup and the third does. *)
Theorem presence_cache_lookups :
  (forall b a tab u st,
     badgeCache st !! tab = Some u ->
     remoteLookups (check b a tab u false st) = remoteLookups st) /\
  (forall base tab u st,
     isHttpUrl u = true -> truthy base = true ->
     (forall a, badgeCache st !! tab <> Some u ->
        remoteLookups (check (Some base) a tab u false st)
        = remoteLookups st ++ [u]) /\
     (forall a,
        remoteLookups (check (Some base) a tab u true st)
        = remoteLookups st ++ [u]) /\
     (forall a1 a2 a3 u',
        isHttpUrl u' = true -> u' <> u ->
        let st1 := check (Some base) a1 tab u false st in
        let st2 := check (Some base) a2 tab u false st1 in
        let st3 := check (Some base) a3 tab u' false st2 in
        remoteLookups st2 = remoteLookups st1 /\
        remoteLookups st3 = remoteLookups st2 ++ [u'])).
Proof.
  assert (Hhit : forall b a tab u s, badgeCache s !! tab = Some u ->
            remoteLookups (check b a tab u false s) = remoteLookups s /\
            badgeCache (check b a tab u false s) = badgeCache s).
  { intros b a tab u s Hc. destruct (check_spec b a tab u false s) as [-> ->].
    unfold lookupDue. rewrite bool_decide_eq_true_2 by exact Hc.
    cbn [orb negb]. rewrite andb_false_r, app_nil_r. auto. }
  split; [intros b a tab u st Hc; now apply Hhit|].
  intros base tab u st Hu Hb.
  assert (Hmiss : forall a s w, isHttpUrl w = true ->
            badgeCache s !! tab <> Some w ->
            remoteLookups (check (Some base) a tab w false s)
            = remoteLookups s ++ [w] /\
            badgeCache (check (Some base) a tab w false s)
            = <[tab := w]> (badgeCache s)).
  { intros a s w Hw Hc. destruct (check_spec (Some base) a tab w false s) as [-> ->].
    unfold lookupDue. rewrite bool_decide_eq_false_2 by exact Hc.
    cbn [truthyOpt]. rewrite Hw, Hb. auto. }
  split; [|split].
  - intros a Hc. now apply Hmiss.
  - intros a. destruct (check_spec (Some base) a tab u true st) as [-> _].
    unfold lookupDue. cbn [truthyOpt orb]. now rewrite Hu, Hb.
  - intros a1 a2 a3 u' Hu' Hne st1 st2 st3.
    assert (Hc1 : badgeCache st1 !! tab = Some u).
    { subst st1. destruct (decide (badgeCache st !! tab = Some u)) as [Hc|Hc].
      - destruct (Hhit (Some base) a1 tab u st Hc) as [_ ->]. exact Hc.
      - destruct (Hmiss a1 st u Hu Hc) as [_ ->]. apply lookup_insert_eq. }
    destruct (Hhit (Some base) a2 tab u st1 Hc1) as [Hl2 Hc2].
    fold st2 in Hl2, Hc2.
    split; [exact Hl2|].
    apply Hmiss; [exact Hu'|]. rewrite Hc2, Hc1. congruence.
Qed.

(** C9: a presence check of a resource identifier that is not an http or
    https url (the empty identifier included) ends at once, having only
    cleared the badge: it performs no remote lookup and leaves the cache as
    it was, also once the event loop has run on. *)
Theorem non_http_check_short_circuits b a tab u force st :
  isHttpUrl u = false ->
  let st' := updateBadgeForTab tab u force st in
  activations st' = activations st ++ [Finished] /\
  trace st' = trace st ++ [(Some (length (activations st)), SetBadgeText [] tab)] /\
  badgeCache st' = badgeCache st /\
  remoteLookups st' = remoteLookups st /\
  badgeCache (check b a tab u force st) = badgeCache st /\
  remoteLookups (check b a tab u force st) = remoteLookups st.
Proof.
  intros Hu st'. subst st'.
  destruct (check_spec b a tab u force st) as [-> ->].
  unfold lookupDue, updateBadgeForTab, clearBadge.
  rewrite isHttpUrl_guard, Hu. cbn [negb andb].
  autorewrite with proj. rewrite !app_nil_r. repeat split.
  unfold suspend, withActivations, emit. cbn [activations].
  case_decide; [lia | reflexivity].
Qed.

(** C10: when a presence check goes to the remote lookup, the cache holds
    the url for the tab at the moment the activation is suspended on the
    lookup, and whatever the lookup settles with (a rejection included) the
    entry stays; a check of the same url for the same tab that follows, not
    forced, then performs no remote lookup. *)
Theorem cache_entry_precedes_lookup pid tab u force b st :
  (pid <= length (activations st))%nat ->
  let st1 := resumeBadgeBaseUrl pid tab u force b st in
  remoteLookups st1 <> remoteLookups st ->
  activations st1 !! pid = Some (BadgeAwaitResult tab) /\
  badgeCache st1 !! tab = Some u /\
  remoteLookups st1 = remoteLookups st ++ [u] /\
  (forall r throws,
     let st2 := step st1 (Settle pid r throws) in
     badgeCache st2 !! tab = Some u /\
     remoteLookups st2 = remoteLookups st1 /\
     forall b' a',
       remoteLookups (check b' a' tab u false st2) = remoteLookups st2).
Proof.
  intros Hle st1 Hne.
  destruct (resumeBadgeBaseUrl_cases pid tab u force b st Hle)
    as [(Hl & _)|(Hl & Hc & Ha & _)]; fold st1 in Hl |- *; [contradiction|].
  fold st1 in Hc, Ha.
  assert (Hc1 : badgeCache st1 !! tab = Some u)
    by (rewrite Hc; apply lookup_insert_eq).
  repeat split; try assumption.
  all: cbn [step]; rewrite Ha; cbn [resume];
    destruct (resumeBadgeResult_keeps pid tab r st1) as [Hl2 Hc2].
  - now rewrite Hc2.
  - exact Hl2.
  - intros b' a'.
    destruct (check_spec b' a' tab u false (resumeBadgeResult pid tab r st1))
      as [-> _].
    unfold lookupDue. rewrite Hc2, bool_decide_eq_true_2 by exact Hc1.
    cbn [orb negb]. now rewrite andb_false_r, app_nil_r.
Qed.

End Badge.

(** ** The prompts sent upstream *)

Section Prompts.

Context `{Externals}.

(** The call of [streamText] a task makes when its settings arrive. *)
Lemma resumeVercel_streamText pid t c modelId s throws st :
  trace (resumeVercel pid t c (AwaitPromptsSettings modelId)
           (RPromptsSettings s) throws st)
  = trace st
    ++ [(Some pid,
         StreamText (default [] (sm_provider <$> selectedModel t)) modelId
           (systemPrompt t s) (userPrompt t))].
Proof. reflexivity. Qed.

(** C7: the user prompt a direct-provider task sends upstream is the
    content prefixed with a number sign, a space, the title and two line
    feeds when a title is present (it has a code unit that is not white
    space), and the content unchanged when there is none; content body with
    title My Title gives a prompt that begins with the title line. *)
Theorem user_prompt_title_prefix :
  (forall pid t c modelId s throws st,
     exists provider system,
       trace (resumeVercel pid t c (AwaitPromptsSettings modelId)
                (RPromptsSettings s) throws st)
       = trace st
         ++ [(Some pid,
              StreamText provider modelId system
                (if blank (title t) then content t
                 else lit "# " ++ title t ++ [10; 10] ++ content t))]) /\
  (forall markdownContent t, blank t = false ->
     prepareMarkdownContent markdownContent (Some t)
     = lit "# " ++ t ++ [10; 10] ++ markdownContent) /\
  (forall markdownContent t, blank t = true ->
     prepareMarkdownContent markdownContent (Some t) = markdownContent) /\
  (forall markdownContent,
     prepareMarkdownContent markdownContent None = markdownContent) /\
  prepareMarkdownContent (lit "body") (Some (lit "My Title"))
  = lit "# My Title" ++ [10; 10] ++ lit "body".
Proof.
  repeat split.
  - intros. rewrite resumeVercel_streamText. unfold userPrompt.
    rewrite prepareMarkdownContent_spec. eauto.
  - intros m t Hb. now rewrite prepareMarkdownContent_spec, Hb.
  - intros m t Hb. now rewrite prepareMarkdownContent_spec, Hb.
Qed.


End Prompts.

(** ** The default model *)

Lemma find_first {A} (f : A -> bool) (l : list A) m :
  List.find f l = Some m ->
  exists pre post,
    l = pre ++ m :: post /\ f m = true /\ forall x, x ∈ pre -> f x = false.
Proof.
  induction l as [|x l IH]; cbn; [discriminate|].
  destruct (f x) eqn:Hx.
  - intros [= ->]. exists [], l. repeat split; [exact Hx|].
    intros y Hy. now apply not_elem_of_nil in Hy.
  - intros Hf. destruct (IH Hf) as (pre & post & -> & Hm & Hpre).
    exists (x :: pre), post. repeat split; [exact Hm|].
    intros y Hy. apply elem_of_cons in Hy as [->|Hy]; auto.
Qed.

Lemma find_nothing {A} (f : A -> bool) (l : list A) :
  List.find f l = None -> forall x, x ∈ l -> f x = false.
Proof.
  induction l as [|y l IH]; cbn; intros Hf x Hx.
  - now apply not_elem_of_nil in Hx.
  - destruct (f y) eqn:Hy; [discriminate|].
    apply elem_of_cons in Hx as [->|Hx]; auto.
Qed.

(** The providers of the aggregated models are provider types or the
    Huntly server. *)
Lemma addProviderModels_providers e available : forall modelList l,
  Forall (fun p => truthy p = true) available ->
  Forall (fun m => truthy (Toolbar.provider m) = true) modelList ->
  Toolbar.addProviderModels e available modelList = Some l ->
  Forall (fun m => truthy (Toolbar.provider m) = true) l.
Proof.
  induction available as [|p rest IH]; intros modelList l Ha Hm; cbn.
  - now intros [= <-].
  - inversion Ha as [|? ? Hp Hrest]; subst.
    repeat case_match; try discriminate; try (now apply IH).
    all: apply IH; [exact Hrest|]; apply Forall_app; split; [exact Hm|].
    all: apply Forall_forall; intros x Hx.
    all: apply list_elem_of_fmap in Hx as (y & -> & _); exact Hp.
Qed.

(** C5: when the aggregated model list is not empty, the default model is
    the first aggregated model of the provider marked as default if that
    provider has a model in the list, and the first model of the list
    otherwise (provider types being non-empty names).  With a default
    provider that has no enabled model and a second provider with two, and
    no Huntly server model, the default is the first model of the second
    provider. *)
Theorem default_model_resolution :
  (forall e r,
     Forall (fun p => truthy p = true) (Toolbar.availableProviders e) ->
     Toolbar.getAIToolbarData e = Some r ->
     Toolbar.models r <> [] ->
     exists m,
       Toolbar.defaultModel r = Some m /\
       ((exists p pre post,
           Toolbar.effectiveDefaultProviderType e = Some p /\
           Toolbar.models r = pre ++ m :: post /\
           Toolbar.provider m = p /\
           forall x, x ∈ pre -> Toolbar.provider x <> p) \/
        ((forall p x,
            Toolbar.effectiveDefaultProviderType e = Some p ->
            x ∈ Toolbar.models r -> Toolbar.provider x <> p) /\
         exists rest, Toolbar.models r = m :: rest))) /\
  (forall e P1 P2 config1 meta2 id1 id2,
     Toolbar.availableProviders e = [P1; P2] ->
     truthy (Toolbar.baseUrl e) && Toolbar.huntlyShortcutsEnabled e = false ->
     P2 <> lit "huntly-server" ->
     Toolbar.providers e !! P1 = Some config1 ->
     enabledModels config1 = [] ->
     Toolbar.providers e !! P2
     = Some {| enabled := true; enabledModels := [id1; id2] |} ->
     Toolbar.PROVIDER_REGISTRY e !! P2 = Some meta2 ->
     Toolbar.effectiveDefaultProviderType e = Some P1 ->
     Toolbar.getAIToolbarData e
     = Some {| Toolbar.models := [Toolbar.modelItem P2 meta2 id1;
                                  Toolbar.modelItem P2 meta2 id2];
               Toolbar.defaultModel := Some (Toolbar.modelItem P2 meta2 id1) |}).
Proof.
  split.
  - intros e r Hav Hr Hne. unfold Toolbar.getAIToolbarData in Hr.
    destruct (Toolbar.addProviderModels e (Toolbar.availableProviders e) _)
      as [modelList|] eqn:Hadd; [|discriminate].
    injection Hr as <-. cbn [Toolbar.models Toolbar.defaultModel] in *.
    assert (Hprov : Forall (fun m => truthy (Toolbar.provider m) = true) modelList).
    { eapply addProviderModels_providers; [exact Hav| |exact Hadd].
      case_match; repeat constructor. }
    destruct modelList as [|first rest]; [congruence|].
    unfold Toolbar.resolveDefaultModel.
    destruct (Toolbar.effectiveDefaultProviderType e) as [p|]; cbn [truthyOpt].
    + destruct (List.find _ (first :: rest)) as [m|] eqn:Hfind.
      * destruct (find_first _ _ _ Hfind) as (pre & post & Hl & Hm & Hpre).
        apply bool_decide_eq_true in Hm. injection Hm as Hm.
        assert (Htp : truthy p = true).
        { rewrite Forall_forall in Hprov. rewrite <- Hm. apply Hprov.
          rewrite Hl. apply elem_of_app. right. left. }
        rewrite Htp. exists m. split; [reflexivity|]. left.
        exists p, pre, post. repeat split; try assumption.
        intros x Hx Hxp. specialize (Hpre x Hx).
        apply bool_decide_eq_false in Hpre. congruence.
      * exists first. split; [now destruct (truthy p)|]. right.
        split; [|eauto]. intros p' x [= <-] Hx Hxp.
        pose proof (find_nothing _ _ Hfind x Hx) as Hf.
        apply bool_decide_eq_false in Hf. congruence.
    + exists first. split; [reflexivity|]. right. split; [|eauto].
      intros p x Hp. discriminate.
  - intros e P1 P2 config1 meta2 id1 id2 Hav Hh HP2 H1 Hm1 H2 Hreg Hdef.
    assert (HP : P1 <> P2).
    { intros ->. rewrite H1 in H2. injection H2 as ->. discriminate. }
    unfold Toolbar.getAIToolbarData. rewrite Hav, Hh, Hdef.
    cbn [Toolbar.addProviderModels]. rewrite H1, Hm1, H2, Hreg.
    rewrite (bool_decide_eq_false_2 _ HP2). cbn [length Nat.ltb Nat.leb andb enabled enabledModels].
    rewrite andb_false_r.
    assert (Hsame : (if bool_decide (P1 = lit "huntly-server")
                     then Toolbar.addProviderModels e [P2] []
                     else Toolbar.addProviderModels e [P2] [])
                    = Toolbar.addProviderModels e [P2] [])
      by (now destruct (bool_decide _)).
    cbn [Toolbar.addProviderModels] in Hsame.
    rewrite H2, Hreg, (bool_decide_eq_false_2 _ HP2) in Hsame.
    cbn [length Nat.ltb Nat.leb andb enabled enabledModels app map] in Hsame |- *.
    destruct (bool_decide (P1 = lit "huntly-server")); cbn [app map];
      unfold Toolbar.resolveDefaultModel; cbn [truthyOpt List.find Toolbar.modelItem Toolbar.provider];
      rewrite !bool_decide_eq_false_2 by congruence;
      now destruct (truthy P1).
Qed.

(** ** The registry of direct-provider tasks *)

Lemma registryShrinks_refl st : registryShrinks st st.
Proof. split; auto. Qed.

Lemma registryShrinks_ok st st' :
  registryShrinks st st' -> registryOk st -> registryOk st'.
Proof.
  intros [Hlen Hsub] Hok k c Hk.
  destruct (Hok k c (Hsub _ _ Hk)) as [Hc Hinj].
  split; [lia|]. intros k' Hk'. apply Hinj, Hsub, Hk'.
Qed.

Lemma registryShrinks_emit st st1 who e :
  registryShrinks st st1 -> registryShrinks st (emit who e st1).
Proof. intros [? ?]. split; auto. Qed.

Lemma registryShrinks_suspend st st1 pid a :
  registryShrinks st st1 -> registryShrinks st (suspend pid a st1).
Proof. intros [? ?]. split; auto. Qed.

Lemma registryShrinks_abort st st1 c :
  registryShrinks st st1 -> registryShrinks st (abort c st1).
Proof.
  intros [? ?]. split; auto. unfold abort, withControllers. cbn.
  rewrite length_insert. assumption.
Qed.

Lemma registryShrinks_abort_all st st1 (l : list (jsstring * (Z * nat))) :
  registryShrinks st st1 ->
  registryShrinks st (foldr (fun kv s => abort (snd (snd kv)) s) st1 l).
Proof.
  intros Hr. induction l as [|kv l IH]; [exact Hr|].
  cbn [foldr]. now apply registryShrinks_abort.
Qed.

Lemma registryShrinks_newAbortController st st1 :
  registryShrinks st st1 ->
  registryShrinks st (withControllers (fun h => h ++ [false]) st1).
Proof.
  intros [? ?]. split; auto. unfold withControllers. cbn.
  rewrite length_app. lia.
Qed.

Lemma registryShrinks_delete st st1 k :
  registryShrinks st st1 -> registryShrinks st (withVercel (delete k) st1).
Proof.
  intros [? Hsub]. split; auto. unfold withVercel. cbn.
  intros k' c Hk'. apply lookup_delete_Some in Hk' as [_ Hk']. auto.
Qed.

Lemma registryShrinks_withBadgeCache st st1 f :
  registryShrinks st st1 -> registryShrinks st (withBadgeCache f st1).
Proof. intros [? ?]. split; auto. Qed.

Lemma registryShrinks_withSse st st1 f :
  registryShrinks st st1 -> registryShrinks st (withSse f st1).
Proof. intros [? ?]. split; auto. Qed.

Ltac registry_peel :=
  repeat first
    [ assumption
    | apply registryShrinks_refl
    | apply registryShrinks_suspend
    | apply registryShrinks_emit
    | apply registryShrinks_abort
    | apply registryShrinks_abort_all
    | apply registryShrinks_newAbortController
    | apply registryShrinks_delete
    | apply registryShrinks_withBadgeCache
    | apply registryShrinks_withSse ].

Section Registry.

Context `{Externals}.

Lemma registryShrinks_updateBadgeForTab st0 tab u force st :
  registryShrinks st0 st ->
  registryShrinks st0 (updateBadgeForTab tab u force st).
Proof.
  intros Hr. unfold updateBadgeForTab, clearBadge. case_match; registry_peel.
Qed.

Lemma registryShrinks_startProcessing st0 t throws st st' :
  registryShrinks st0 st -> startProcessing t throws st = Some st' ->
  registryShrinks st0 st'.
Proof.
  intros Hr. unfold startProcessing, sendMessage,
    sseRequestManager.processContentWithShortcutStream. cbn.
  destruct throws; intros [= <-]. registry_peel.
Qed.

Lemma registryShrinks_sse_cancelTask st0 task st :
  registryShrinks st0 st ->
  registryShrinks st0 (snd (sseRequestManager.cancelTask task st)).
Proof.
  intros Hr. unfold sseRequestManager.cancelTask.
  destruct (sseTasks st !! task) as [[? ?]|]; cbn; registry_peel.
Qed.

Lemma registryShrinks_resume st0 pid a r throws st :
  registryShrinks st0 st -> registryShrinks st0 (resume pid a r throws st).
Proof.
  intros Hr.
  destruct a as [|t c ph|t c acc|t|tab u force|tab|activated]; cbn [resume].
  - exact Hr.
  - unfold resumeVercel, vercelCatch, vercelAfterLoop, sendMessage.
    destruct throws; cbn [from_option id]; repeat case_match; registry_peel.
  - unfold resumeSse, sendMessage, sseRequestManager.remove.
    destruct throws; cbn [from_option id]; repeat case_match;
      repeat first [apply registryShrinks_sse_cancelTask | progress registry_peel].
  - destruct r; try exact Hr.
    assert (Hr' : registryShrinks st0 (suspend pid Finished st)) by registry_peel.
    destruct (startProcessing t throws (suspend pid Finished st)) as [st'|] eqn:E;
      cbn [from_option id]; [|exact Hr'].
    eapply registryShrinks_startProcessing; eauto.
  - unfold resumeBadgeBaseUrl, clearBadge. repeat case_match; registry_peel.
  - unfold resumeBadgeResult, clearBadge. repeat case_match; registry_peel.
  - unfold resumeBadgeTab.
    repeat case_match;
      repeat first [apply registryShrinks_updateBadgeForTab
                   | progress registry_peel].
Qed.

(** Registering a direct-provider task keeps the registry well formed. *)
Lemma registryOk_startProcessingWithVercelAI t throws st :
  registryOk st -> registryOk (startProcessingWithVercelAI t throws st).
Proof.
  intros Hok. unfold startProcessingWithVercelAI, sendMessage.
  assert (Hreg : registryOk
            (withVercel (fun m => <[taskId t := length (controllers st)]> m)
               (withControllers (fun h => h ++ [false]) st))).
  { intros k c. unfold withVercel, withControllers. cbn.
    rewrite length_app. cbn. intros Hk.
    apply lookup_insert_Some in Hk as [[<- <-]|[Hne Hk]].
    - split; [lia|]. intros k' Hk'.
      apply lookup_insert_Some in Hk' as [[<- _]|[_ Hk']]; [reflexivity|].
      apply Hok in Hk' as [Hlt _]. lia.
    - destruct (Hok k c Hk) as [Hlt Hinj]. split; [lia|]. intros k' Hk'.
      apply lookup_insert_Some in Hk' as [[_ <-]|[_ Hk']]; [lia|]. now apply Hinj. }
  cbn. destruct throws.
  - eapply registryShrinks_ok; [|exact Hreg]. registry_peel.
  - eapply registryShrinks_ok; [|exact Hreg]. registry_peel.
Qed.

(** Every turn keeps the registry well formed. *)
Lemma registryOk_step st i : registryOk st -> registryOk (step st i).
Proof.
  intros Hok. pose proof (registryShrinks_refl st) as Hr.
  destruct i as [t skip throws|task|tab u|tab complete cu tu|tab|tab|pid r throws];
    cbn [step].
  - case_match; [|now apply registryOk_startProcessingWithVercelAI].
    eapply registryShrinks_ok; [|exact Hok].
    unfold startProcessingWithShortcuts. destruct skip.
    + destruct (startProcessing t throws st) as [st'|] eqn:E;
        cbn [from_option id]; [|exact Hr].
      eapply registryShrinks_startProcessing; eauto.
    + unfold sendMessage. destruct throws; registry_peel.
  - eapply registryShrinks_ok; [|exact Hok]. unfold shortcuts_cancel.
    pose proof (registryShrinks_sse_cancelTask st task st Hr) as H1.
    destruct (sseRequestManager.cancelTask task st) as [b1 st1]. cbn [snd] in H1.
    unfold cancelVercelAITask.
    destruct (vercelAIAbortControllers st1 !! task); cbn [snd]; registry_peel.
  - eapply registryShrinks_ok; [|exact Hok].
    unfold refreshBadgeForActiveTab.
    repeat case_match;
      repeat first [apply registryShrinks_updateBadgeForTab
                   | progress registry_peel].
  - eapply registryShrinks_ok; [|exact Hok]. unfold tabs_onUpdated.
    repeat case_match;
      repeat first [apply registryShrinks_updateBadgeForTab
                   | progress registry_peel].
  - eapply registryShrinks_ok; [|exact Hok]. registry_peel.
  - eapply registryShrinks_ok; [|exact Hok].
    unfold tabs_onRemoved, sseRequestManager.cancelTasksByTabId. cbn.
    registry_peel.
  - eapply registryShrinks_ok; [|exact Hok].
    destruct (activations st !! pid) as [a|]; [|exact Hr].
    now apply registryShrinks_resume.
Qed.

Lemma registryOk_run inputs : forall st,
  registryOk st -> registryOk (run st inputs).
Proof.
  induction inputs as [|i inputs IH]; intros st Hok; [exact Hok|].
  cbn [run fold_left]. apply IH, registryOk_step, Hok.
Qed.

Lemma registryOk_initial : registryOk initial.
Proof. intros k c Hk. cbn in Hk. now rewrite lookup_empty in Hk. Qed.

(** C2, as the code has it: the registry holds at most one entry per task
    id; registering a second task under a task id that has a live entry
    puts the new controller in the place of the first one, so the registry
    does not grow, and the first controller is not aborted by this and is no
    longer held by the registry under any task id. *)
Theorem second_registration_overwrites inputs t throws c_old :
  let st := run initial inputs in
  let st' := startProcessingWithVercelAI t throws st in
  vercelAIAbortControllers st !! taskId t = Some c_old ->
  vercelAIAbortControllers st' !! taskId t = Some (length (controllers st)) /\
  length (controllers st) <> c_old /\
  size (vercelAIAbortControllers st') = size (vercelAIAbortControllers st) /\
  aborted c_old st' = aborted c_old st /\
  (forall k, vercelAIAbortControllers st' !! k <> Some c_old).
Proof.
  intros st st' Hk.
  destruct (registryOk_run inputs initial registryOk_initial _ _ Hk) as [Hlt Hinj].
  fold st in Hlt, Hinj.
  assert (Hreg : vercelAIAbortControllers st'
                 = <[taskId t := length (controllers st)]>
                     (vercelAIAbortControllers st)).
  { subst st'. unfold startProcessingWithVercelAI, sendMessage. cbn.
    now destruct throws. }
  assert (Hctl : controllers st' = controllers st ++ [false]).
  { subst st'. unfold startProcessingWithVercelAI, sendMessage. cbn.
    now destruct throws. }
  rewrite Hreg. repeat split.
  - apply lookup_insert_eq.
  - lia.
  - apply map_size_insert_Some. eauto.
  - unfold aborted. rewrite Hctl. now rewrite lookup_app_l by exact Hlt.
  - intros k Hk'.
    apply lookup_insert_Some in Hk' as [[_ Hc]|[Hne Hk']]; [lia|].
    apply Hne. symmetry. now apply Hinj.
Qed.

(** The cancel command sets the abort signal of the task registered under
    the task id and removes the entry. *)
Lemma shortcuts_cancel_sets_signal st task c :
  registryOk st ->
  vercelAIAbortControllers st !! task = Some c ->
  aborted c (step st (ShortcutsCancel task)) = true /\
  vercelAIAbortControllers (step st (ShortcutsCancel task)) !! task = None.
Proof.
  intros Hok Hk. destruct (Hok _ _ Hk) as [Hlt _].
  cbn [step]. unfold shortcuts_cancel, sseRequestManager.cancelTask.
  assert (Hset : forall h : list bool, (c < length h)%nat ->
            default false (<[c := true]> h !! c) = true)
    by (intros h Hh; now rewrite list_lookup_insert_eq).
  destruct (sseTasks st !! task) as [[tb c']|];
    unfold cancelVercelAITask, abort, withSse, withVercel, withControllers, aborted;
    cbn; rewrite Hk; cbn; rewrite lookup_delete_eq; split; try reflexivity;
    apply Hset; rewrite ?length_insert; exact Hlt.
Qed.

End Registry.

(** ** Closing a tab *)

Section TabClose.

Context `{Externals}.

Lemma aborted_abort_other c c' st :
  c' <> c -> aborted c (abort c' st) = aborted c st.
Proof.
  intros Hne. unfold aborted, abort, withControllers. cbn.
  now rewrite list_lookup_insert_ne.
Qed.

Lemma aborted_abort_all c (l : list (jsstring * (Z * nat))) st :
  Forall (fun kv => snd (snd kv) <> c) l ->
  aborted c (foldr (fun kv s => abort (snd (snd kv)) s) st l) = aborted c st.
Proof.
  induction 1 as [|kv l Hkv Hl IH]; [reflexivity|].
  cbn [foldr]. now rewrite aborted_abort_other.
Qed.

(** The [onRemoved] listener leaves the registry of direct-provider tasks
    as it is and aborts no controller other than those of the tasks the
    managed-server task manager holds. *)
Lemma tabs_onRemoved_direct_untouched tab st c :
  (forall k tb, sseTasks st !! k <> Some (tb, c)) ->
  vercelAIAbortControllers (snd (tabs_onRemoved tab st))
  = vercelAIAbortControllers st /\
  aborted c (snd (tabs_onRemoved tab st)) = aborted c st.
Proof.
  intros Hc. unfold tabs_onRemoved, sseRequestManager.cancelTasksByTabId.
  cbn [snd]. split.
  - unfold withBadgeCache, withSse. cbn.
    generalize (map_to_list
      (filter (fun kv : jsstring * (Z * nat) => kv.2.1 = tab) (sseTasks st))).
    intros l. induction l as [|kv l IH]; [reflexivity|]. exact IH.
  - autorewrite with proj. apply aborted_abort_all.
    apply Forall_forall. intros [k [tb c']] Hin Hcc. cbn in Hcc. subst c'.
    apply elem_of_map_to_list in Hin.
    apply map_lookup_filter_Some in Hin as [Hin _]. now apply (Hc k tb).
Qed.

End TabClose.


(** ** Further properties of direct-provider tasks *)

Lemma messagesBy_single pid tab m :
  messagesBy pid [(Some pid, SendMessage tab m)] = [(tab, m)].
Proof. unfold messagesBy. cbn. now rewrite decide_True. Qed.

Lemma vercelAIAbortControllers_emit who e st :
  vercelAIAbortControllers (emit who e st) = vercelAIAbortControllers st.
Proof. reflexivity. Qed.
Lemma vercelAIAbortControllers_suspend pid a st :
  vercelAIAbortControllers (suspend pid a st) = vercelAIAbortControllers st.
Proof. reflexivity. Qed.
Lemma vercelAIAbortControllers_withVercel f st :
  vercelAIAbortControllers (withVercel f st) = f (vercelAIAbortControllers st).
Proof. reflexivity. Qed.
Lemma vercelAIAbortControllers_withSse f st :
  vercelAIAbortControllers (withSse f st) = vercelAIAbortControllers st.
Proof. reflexivity. Qed.
Lemma vercelAIAbortControllers_abort c st :
  vercelAIAbortControllers (abort c st) = vercelAIAbortControllers st.
Proof. reflexivity. Qed.

#[local] Hint Rewrite vercelAIAbortControllers_emit
  vercelAIAbortControllers_suspend vercelAIAbortControllers_withVercel
  vercelAIAbortControllers_withSse vercelAIAbortControllers_abort : proj.

Section MoreTasks.

Context `{Externals}.

(** One chunk, forwarded. *)
Lemma step_chunk st pid t c acc textPart :
  activations st !! pid = Some (Vercel t c (Streaming acc)) ->
  aborted c st = false ->
  let st1 := step st (Settle pid (RChunk textPart) false) in
  activations st1 !! pid = Some (Vercel t c (Streaming (acc ++ textPart))) /\
  aborted c st1 = false /\
  trace st1
  = trace st
    ++ [(Some pid,
         SendMessage (tabId t)
           (ShortcutsProcessData textPart (acc ++ textPart)
              (shortcutName t) (taskId t)))].
Proof.
  intros Hl Ha. cbn [step]. rewrite Hl. cbn [resume].
  unfold resumeVercel, sendMessage. rewrite Ha.
  repeat split.
  - apply lookup_suspend. autorewrite with proj.
    apply Nat.lt_le_incl. eapply lookup_lt_Some, Hl.
  - now autorewrite with proj.
Qed.

(** The end of the stream of a task that is not aborted. *)
Lemma step_done st pid t c acc :
  activations st !! pid = Some (Vercel t c (Streaming acc)) ->
  aborted c st = false ->
  let st1 := step st (Settle pid RDone false) in
  activations st1 !! pid = Some Finished /\
  vercelAIAbortControllers st1 !! taskId t = None /\
  trace st1
  = trace st
    ++ [(Some pid,
         SendMessage (tabId t)
           (ShortcutsProcessResult acc (shortcutName t) (taskId t)))].
Proof.
  intros Hl Ha. cbn [step]. rewrite Hl. cbn [resume].
  unfold resumeVercel, vercelAfterLoop, sendMessage.
  autorewrite with proj. rewrite Ha. cbn [negb from_option id].
  repeat split.
  - apply lookup_suspend. autorewrite with proj.
    apply Nat.lt_le_incl. eapply lookup_lt_Some, Hl.
  - autorewrite with proj. apply lookup_delete_eq.
Qed.

(** X1: a direct-provider task that is not cancelled forwards the chunks of
    its stream in the order they arrive, each with the text accumulated so
    far, and when the stream ends it sends the result with the whole text,
    ends and is no longer registered. *)
Theorem stream_forwarded_in_order pid t c chunks : forall st acc,
  activations st !! pid = Some (Vercel t c (Streaming acc)) ->
  aborted c st = false ->
  let st' := run st (map (fun textPart => Settle pid (RChunk textPart) false) chunks
                     ++ [Settle pid RDone false]) in
  messagesBy pid (trace st')
  = messagesBy pid (trace st)
    ++ dataMessages t acc chunks
    ++ [(tabId t,
         ShortcutsProcessResult (acc ++ concat chunks) (shortcutName t) (taskId t))] /\
  activations st' !! pid = Some Finished /\
  vercelAIAbortControllers st' !! taskId t = None.
Proof.
  induction chunks as [|textPart chunks IH]; intros st acc Hl Ha.
  - cbn [map app run fold_left concat dataMessages].
    destruct (step_done st pid t c acc Hl Ha) as (Hl1 & Hr1 & Ht1).
    rewrite app_nil_r. repeat split; try assumption.
    rewrite Ht1, messagesBy_app, messagesBy_single. reflexivity.
  - cbn [map app run fold_left concat dataMessages].
    destruct (step_chunk st pid t c acc textPart Hl Ha) as (Hl1 & Ha1 & Ht1).
    destruct (IH _ _ Hl1 Ha1) as (Hm & Hf & Hr).
    repeat split; try assumption.
    unfold run in Hm. rewrite Hm, Ht1, messagesBy_app, messagesBy_single.
    rewrite <- !app_assoc. reflexivity.
Qed.

(** X2: when forwarding a chunk throws, the task leaves the loop without
    sending anything and without being aborted or deregistered; it forwards
    no later chunk, and once the stream is closed it sends the result with
    the text accumulated up to and including the chunk that was not
    delivered. *)
Theorem chunk_send_failure_stops_forwarding st pid t c acc textPart :
  activations st !! pid = Some (Vercel t c (Streaming acc)) ->
  aborted c st = false ->
  let st1 := step st (Settle pid (RChunk textPart) true) in
  activations st1 !! pid = Some (Vercel t c (Closing (acc ++ textPart))) /\
  trace st1 = trace st /\
  aborted c st1 = false /\
  vercelAIAbortControllers st1 = vercelAIAbortControllers st /\
  (forall more throws, step st1 (Settle pid (RChunk more) throws) = st1) /\
  trace (step st1 (Settle pid RReturned false))
  = trace st
    ++ [(Some pid,
         SendMessage (tabId t)
           (ShortcutsProcessResult (acc ++ textPart) (shortcutName t) (taskId t)))].
Proof.
  intros Hl Ha st1.
  assert (Hst1 : st1 = suspend pid (Vercel t c (Closing (acc ++ textPart))) st).
  { subst st1. cbn [step]. rewrite Hl. cbn [resume].
    unfold resumeVercel, sendMessage. now rewrite Ha. }
  assert (Hl1 : activations st1 !! pid
                = Some (Vercel t c (Closing (acc ++ textPart)))).
  { rewrite Hst1. apply lookup_suspend, Nat.lt_le_incl.
    eapply lookup_lt_Some, Hl. }
  repeat split; try assumption; try (rewrite Hst1; now autorewrite with proj).
  - intros more throws. cbn [step]. rewrite Hl1. reflexivity.
  - cbn [step]. rewrite Hl1. cbn [resume].
    unfold resumeVercel, vercelAfterLoop, sendMessage.
    rewrite Hst1. autorewrite with proj. rewrite Ha. cbn [negb from_option id].
    now autorewrite with proj.
Qed.

(** X3: whenever a turn ends a direct-provider task (its stream ended, was
    closed, or one of its awaited calls failed), no registry entry is left
    under its task id, so a cancel command that arrives afterwards finds
    nothing: it returns false and changes nothing. *)
Theorem termination_deregisters st pid t c ph r throws :
  activations st !! pid = Some (Vercel t c ph) ->
  let st1 := step st (Settle pid r throws) in
  activations st1 !! pid = Some Finished ->
  vercelAIAbortControllers st1 !! taskId t = None /\
  cancelVercelAITask (taskId t) st1 = (false, st1).
Proof.
  intros Hl st1 Hf.
  assert (Hle : (pid <= length (activations st))%nat)
    by (apply Nat.lt_le_incl; eapply lookup_lt_Some, Hl).
  assert (Hreg : vercelAIAbortControllers st1 !! taskId t = None).
  { subst st1. revert Hf. cbn [step]. rewrite Hl. cbn [resume].
    unfold resumeVercel, vercelCatch, vercelAfterLoop, sendMessage.
    destruct throws; cbn [from_option id]; repeat case_match; intros Hf;
      try (rewrite lookup_suspend in Hf
             by (autorewrite with proj; exact Hle); discriminate);
      try congruence;
      autorewrite with proj; apply lookup_delete_eq. }
  split; [exact Hreg|]. unfold cancelVercelAITask. now rewrite Hreg.
Qed.

(** X4: cancelling a direct-provider task returns true exactly when the
    registry has an entry under the task id; afterwards there is no entry
    under that id, the entries under other ids are as they were, and a
    second cancel of the same id returns false and changes nothing. *)
Theorem cancel_direct_task_once st task :
  let r := cancelVercelAITask task st in
  (fst r = true <-> is_Some (vercelAIAbortControllers st !! task)) /\
  vercelAIAbortControllers (snd r) !! task = None /\
  (forall k, k <> task ->
     vercelAIAbortControllers (snd r) !! k = vercelAIAbortControllers st !! k) /\
  cancelVercelAITask task (snd r) = (false, snd r).
Proof.
  unfold cancelVercelAITask.
  destruct (vercelAIAbortControllers st !! task) as [c|] eqn:Hk; cbn [fst snd].
  - autorewrite with proj. rewrite lookup_delete_eq. repeat split; eauto.
    intros k Hne. now apply lookup_delete_ne.
  - rewrite Hk. repeat split; try discriminate; auto.
    intros [x Hx]. discriminate.
Qed.

(** X5: when the provider of the selected model is not in the provider
    storage or is disabled, the task sends the processing error that names
    the provider, ends and leaves the registry; it makes no upstream call,
    then or later. *)
Theorem provider_not_usable_is_reported st pid t c sm providers :
  activations st !! pid = Some (Vercel t c AwaitProvidersStorage) ->
  aborted c st = false ->
  selectedModel t = Some sm ->
  (providers !! sm_provider sm = None \/
   exists config,
     providers !! sm_provider sm = Some config /\ enabled config = false) ->
  let st1 := step st (Settle pid (RProvidersStorage providers) false) in
  trace st1
  = trace st
    ++ [(Some pid,
         SendMessage (tabId t)
           (ShortcutsProcessError
              (lit "Provider " ++ sm_provider sm
               ++ lit " is not configured or enabled")
              (shortcutName t) (taskId t)))] /\
  activations st1 !! pid = Some Finished /\
  vercelAIAbortControllers st1 !! taskId t = None /\
  (forall r throws, step st1 (Settle pid r throws) = st1).
Proof.
  intros Hl Ha Hsm Hp st1.
  assert (Hle : (pid <= length (activations st))%nat)
    by (apply Nat.lt_le_incl; eapply lookup_lt_Some, Hl).
  assert (Hst1 : st1 = vercelCatch pid t c
            (CaughtValue
               (Some (lit "Provider " ++ sm_provider sm
                      ++ lit " is not configured or enabled"))) false st).
  { subst st1. cbn [step]. rewrite Hl. cbn [resume]. unfold resumeVercel.
    rewrite Hsm. destruct Hp as [->|(config & -> & ->)]; reflexivity. }
  assert (Hf : activations st1 !! pid = Some Finished).
  { rewrite Hst1. unfold vercelCatch, sendMessage. autorewrite with proj.
    rewrite Ha. cbn [from_option id]. apply lookup_suspend.
    now autorewrite with proj. }
  repeat split; try assumption.
  - rewrite Hst1. unfold vercelCatch, sendMessage. autorewrite with proj.
    rewrite Ha. cbn [from_option id]. now autorewrite with proj.
  - rewrite Hst1. unfold vercelCatch, sendMessage. autorewrite with proj.
    rewrite Ha. cbn [from_option id]. autorewrite with proj.
    apply lookup_delete_eq.
  - intros r throws. cbn [step]. now rewrite Hf.
Qed.

(** X6: in every state the worker can reach, each entry of the registry of
    direct-provider tasks refers to a controller that was created, and no
    controller is registered under two task ids. *)
Theorem registry_stays_well_formed inputs : registryOk (run initial inputs).
Proof. apply registryOk_run, registryOk_initial. Qed.

End MoreTasks.

(** ** Further properties of the badge *)

Lemma length_suspend_new a st :
  length (activations (suspend (length (activations st)) a st))
  = S (length (activations st)).
Proof.
  unfold suspend, withActivations. cbn. case_decide; [lia|].
  rewrite length_app. cbn. lia.
Qed.

Lemma length_suspend_eq n a st :
  length (activations st) = n ->
  length (activations (suspend n a st)) = S n.
Proof. intros <-. apply length_suspend_new. Qed.

Lemma length_suspend_old pid a st :
  (pid < length (activations st))%nat ->
  length (activations (suspend pid a st)) = length (activations st).
Proof.
  intros Hlt. unfold suspend, withActivations. cbn.
  rewrite decide_True by exact Hlt. apply length_insert.
Qed.

Lemma abort_all_keeps (l : list (jsstring * (Z * nat))) st :
  let st1 := foldr (fun kv s => abort (snd (snd kv)) s) st l in
  badgeCache st1 = badgeCache st /\ trace st1 = trace st /\
  activations st1 = activations st /\ sseTasks st1 = sseTasks st /\
  vercelAIAbortControllers st1 = vercelAIAbortControllers st.
Proof.
  induction l as [|kv l IH]; cbn [foldr]; [repeat split|].
  destruct IH as (? & ? & ? & ? & ?). repeat split; assumption.
Qed.

Section MoreBadge.

Context `{Externals}.

(** X8: what a presence check calls, run to its end: for a url that is not
    http or https, or with no server base url, it clears the badge and does
    nothing else; on a cache hit that is not forced it calls nothing and
    leaves the badge as it is; otherwise it looks the url up and then sets
    the saved mark if the answer is a page with a positive id, and clears
    the badge for any other answer, a malformed or rejected one included. *)
Theorem check_calls b a tab u force st :
  trace (check b a tab u force st)
  = trace st
    ++ map (fun e => (Some (length (activations st)), e))
         (if negb (isHttpUrl u) || negb (truthyOpt b)
          then [SetBadgeText [] tab]
          else if lookupDue b tab u force st
               then GetPageOperateResult u :: badgeCalls a tab
               else []).
Proof.
  unfold check, lookupDue, updateBadgeForTab. rewrite isHttpUrl_guard.
  destruct (isHttpUrl u); cbn [negb andb orb run fold_left step].
  - rewrite lookup_suspend by lia. cbn [resume].
    unfold resumeBadgeBaseUrl, clearBadge.
    destruct b as [base|]; cbn [settled truthyOpt].
    + destruct (truthy base); cbn [negb andb].
      * autorewrite with proj.
        destruct force; cbn [negb andb orb]; [|case_bool_decide; cbn [negb]].
        all: rewrite lookup_suspend
          by (autorewrite with proj; apply Nat.lt_le_incl, length_suspend; lia).
        all: cbn [resume]; unfold resumeBadgeResult, clearBadge, badgeCalls.
        all: destruct a as [[| |[id|]]|]; cbn [settled];
          try destruct (0 <? id)%Z;
          autorewrite with proj; cbn [map];
          rewrite <- ?app_assoc, ?app_nil_r; reflexivity.
      * rewrite lookup_suspend
          by (autorewrite with proj; apply Nat.lt_le_incl, length_suspend; lia).
        cbn [resume]. now autorewrite with proj.
    + rewrite lookup_suspend
        by (autorewrite with proj; apply Nat.lt_le_incl, length_suspend; lia).
      cbn [resume]. now autorewrite with proj.
  - unfold clearBadge. rewrite lookup_suspend by (autorewrite with proj; lia).
    cbn [resume].
    rewrite lookup_suspend by (autorewrite with proj; lia).
    cbn [resume]. now autorewrite with proj.
Qed.

(** X9: closing a tab removes its cache entry and no other, and performs no
    lookup; a check of the same url for a tab with that id that follows,
    not forced, therefore looks the url up again. *)
Theorem tab_close_evicts_cache st tab :
  let st1 := step st (TabRemoved tab) in
  badgeCache st1 = delete tab (badgeCache st) /\
  remoteLookups st1 = remoteLookups st /\
  (forall base a u,
     isHttpUrl u = true -> truthy base = true ->
     remoteLookups (check (Some base) a tab u false st1)
     = remoteLookups st ++ [u]).
Proof.
  intros st1.
  assert (Hc : badgeCache st1 = delete tab (badgeCache st)).
  { subst st1. cbn [step]. unfold tabs_onRemoved,
      sseRequestManager.cancelTasksByTabId. cbn [snd].
    autorewrite with proj. unfold withSse. cbn [badgeCache].
    now destruct (abort_all_keeps
      (map_to_list (filter (fun kv : jsstring * (Z * nat) => kv.2.1 = tab)
                      (sseTasks st))) st) as (-> & _). }
  assert (Hl : remoteLookups st1 = remoteLookups st).
  { subst st1. cbn [step]. unfold tabs_onRemoved,
      sseRequestManager.cancelTasksByTabId, remoteLookups. cbn [snd].
    autorewrite with proj.
    now destruct (abort_all_keeps
      (map_to_list (filter (fun kv : jsstring * (Z * nat) => kv.2.1 = tab)
                      (sseTasks st))) st) as (_ & -> & _). }
  repeat split; try assumption.
  intros base a u Hu Hb.
  destruct (check_spec (Some base) a tab u false st1) as [-> _].
  unfold lookupDue. rewrite Hc, lookup_delete_eq, Hl.
  rewrite bool_decide_eq_false_2 by discriminate.
  cbn [truthyOpt]. now rewrite Hu, Hb.
Qed.

(** X10: a url change of a tab (navigation inside a page, reported before
    the load completes) drops the cache entry of the tab before the check,
    so the new url is looked up even when the cache held it, given an http
    or https url and a configured server. *)
Theorem url_change_is_rechecked st tab u tabUrl base a :
  isHttpUrl u = true -> truthy base = true ->
  let pid := length (activations st) in
  let st' := run st [TabUpdated tab false (Some u) tabUrl;
                     Settle pid (RBaseUrl base) false;
                     Settle pid (settled RPageOperateResult a) false] in
  remoteLookups st' = remoteLookups st ++ [u] /\
  badgeCache st' !! tab = Some u.
Proof.
  intros Hu Hb pid st'.
  assert (Ht : truthy u = true) by (destruct u; [discriminate | reflexivity]).
  assert (Hst : st' = check (Some base) a tab u false
                        (withBadgeCache (delete tab) st)).
  { subst st'. unfold check. cbn [run fold_left step]. unfold tabs_onUpdated.
    now rewrite Ht. }
  rewrite Hst.
  destruct (check_spec (Some base) a tab u false (withBadgeCache (delete tab) st))
    as [-> ->].
  unfold lookupDue. autorewrite with proj. rewrite lookup_delete_eq.
  rewrite bool_decide_eq_false_2 by discriminate.
  cbn [truthyOpt]. rewrite Hu, Hb. cbn [andb orb negb].
  split; [reflexivity | apply lookup_insert_eq].
Qed.

(** The checks started from the callbacks of [chrome.tabs.query] and
    [chrome.tabs.get]. *)
Lemma check_after_callback st n b a tab u force :
  length (activations st) = n ->
  run (updateBadgeForTab tab u force st)
    [Settle n (settled RBaseUrl b) false;
     Settle n (settled RPageOperateResult a) false]
  = check b a tab u force st.
Proof. intros <-. reflexivity. Qed.

(** X11: refreshing the badge of the active tab (as on a badge refresh
    message that names no tab) is a forced check of the tab the query
    returns: its url is looked up even when the cache holds it, given an
    http or https url and a configured server. *)
Theorem refresh_forces_active_tab st id u base a :
  id <> 0%Z -> isHttpUrl u = true -> truthy base = true ->
  let pid := length (activations st) in
  let st' := run (refreshBadgeForActiveTab st)
               [Settle pid (RTab (Some (id, Some u))) false;
                Settle (S pid) (settled RBaseUrl (Some base)) false;
                Settle (S pid) (settled RPageOperateResult a) false] in
  remoteLookups st' = remoteLookups st ++ [u] /\
  badgeCache st' !! id = Some u.
Proof.
  intros Hid Hu Hb pid st'.
  assert (Ht : truthy u = true) by (destruct u; [discriminate | reflexivity]).
  set (st2 := suspend pid Finished (suspend pid (BadgeAwaitTab None) st)).
  assert (Hn : length (activations st2) = S pid).
  { subst st2. rewrite length_suspend_old; subst pid;
      rewrite length_suspend_new; lia. }
  assert (Hst : st' = check (Some base) a id u true st2).
  { subst st'. unfold refreshBadgeForActiveTab. fold pid.
    cbn [run fold_left]. rewrite <- (check_after_callback st2 (S pid)) by exact Hn.
    cbn [run fold_left]. do 2 f_equal.
    cbn [step]. rewrite lookup_suspend by (subst pid; lia).
    cbn [resume]. unfold resumeBadgeTab. fold st2.
    rewrite Ht, andb_true_r.
    destruct (Z.eqb_spec id 0); [contradiction | reflexivity]. }
  rewrite Hst.
  destruct (check_spec (Some base) a id u true st2) as [-> ->].
  unfold lookupDue. cbn [truthyOpt orb]. rewrite Hu, Hb. cbn [andb].
  split; [reflexivity | apply lookup_insert_eq].
Qed.

(** X12: switching to a tab checks the url the tab has, for the id of the
    activated tab, without forcing: the url is looked up only if it is an
    http or https url, a server is configured and the cache does not hold
    the url for the tab. *)
Theorem activation_check_uses_cache st tab other u b a :
  truthy u = true ->
  let pid := length (activations st) in
  let st' := run st [TabActivated tab;
                     Settle pid (RTab (Some (other, Some u))) false;
                     Settle (S pid) (settled RBaseUrl b) false;
                     Settle (S pid) (settled RPageOperateResult a) false] in
  remoteLookups st'
  = remoteLookups st ++ (if lookupDue b tab u false st then [u] else []).
Proof.
  intros Ht pid st'.
  set (st2 := suspend pid Finished (suspend pid (BadgeAwaitTab (Some tab)) st)).
  assert (Hn : length (activations st2) = S pid).
  { subst st2. rewrite length_suspend_old; subst pid;
      rewrite length_suspend_new; lia. }
  assert (Hst : st' = check b a tab u false st2).
  { subst st'. cbn [run fold_left]. fold pid.
    rewrite <- (check_after_callback st2 (S pid)) by exact Hn.
    cbn [run fold_left]. do 2 f_equal.
    cbn [step]. fold pid. rewrite lookup_suspend by (subst pid; lia).
    cbn [resume]. unfold resumeBadgeTab. fold st2. now rewrite Ht. }
  rewrite Hst. now destruct (check_spec b a tab u false st2) as [-> _].
Qed.

End MoreBadge.

(** ** Further properties of the AI toolbar data *)

Lemma afterFirstColon_app (p m : jsstring) :
  58 ∉ p -> afterFirstColon (p ++ lit ":" ++ m) = m.
Proof.
  induction p as [|x p IH]; intros Hp; [reflexivity|].
  cbn [app afterFirstColon]. destruct (N.eqb_spec x 58) as [->|Hx].
  - exfalso. apply Hp. left.
  - apply IH. intros Hin. apply Hp. now right.
Qed.

(** What the loop over the available providers adds to the model list. *)
Lemma addProviderModels_adds e available : forall modelList l,
  (forall p, p ∈ available -> p ∈ Toolbar.availableProviders e) ->
  Toolbar.addProviderModels e available modelList = Some l ->
  exists rest, l = modelList ++ rest /\ forall x, x ∈ rest -> surfacedBy e x.
Proof.
  induction available as [|p rest IH]; intros modelList l Hav;
    cbn [Toolbar.addProviderModels].
  - intros [= <-]. exists []. rewrite app_nil_r. split; [reflexivity|].
    intros x Hx. now apply not_elem_of_nil in Hx.
  - assert (Hrest : forall q, q ∈ rest -> q ∈ Toolbar.availableProviders e)
      by (intros q Hq; apply Hav; now right).
    case_bool_decide as Hh; [now apply IH|].
    destruct (Toolbar.providers e !! p) as [config|] eqn:Hc; [|now apply IH].
    destruct (enabled config) eqn:He; cbn [andb]; [|now apply IH].
    destruct (0 <? length (enabledModels config))%nat; [|now apply IH].
    destruct (Toolbar.PROVIDER_REGISTRY e !! p) as [meta|] eqn:Hm;
      [|discriminate].
    intros Hadd. destruct (IH _ _ Hrest Hadd) as (more & -> & Hmore).
    exists (map (Toolbar.modelItem p meta) (enabledModels config) ++ more).
    split; [now rewrite app_assoc|].
    intros x Hx. apply elem_of_app in Hx as [Hx|Hx]; [|now apply Hmore].
    apply list_elem_of_fmap in Hx as (m & -> & Hm').
    exists p, config, meta, m. repeat split; try assumption.
    apply Hav. left.
Qed.

(** The models of an enabled provider are all added. *)
Lemma addProviderModels_complete e available : forall modelList l p config meta m,
  Toolbar.addProviderModels e available modelList = Some l ->
  (forall x, x ∈ modelList -> x ∈ l) /\
  (p ∈ available -> p <> lit "huntly-server" ->
   Toolbar.providers e !! p = Some config -> enabled config = true ->
   m ∈ enabledModels config ->
   Toolbar.PROVIDER_REGISTRY e !! p = Some meta ->
   Toolbar.modelItem p meta m ∈ l).
Proof.
  induction available as [|q rest IH]; intros modelList l p config meta m;
    cbn [Toolbar.addProviderModels].
  - intros [= <-]. split; [auto|]. intros Hp. now apply not_elem_of_nil in Hp.
  - intros Hadd.
    assert (Hskip : Toolbar.addProviderModels e rest modelList = Some l ->
              q <> p \/ q = lit "huntly-server"
              \/ Toolbar.providers e !! q = None
              \/ (exists c, Toolbar.providers e !! q = Some c /\
                    (enabled c = false \/ enabledModels c = [])) ->
              (forall x, x ∈ modelList -> x ∈ l) /\
              (p ∈ q :: rest -> p <> lit "huntly-server" ->
               Toolbar.providers e !! p = Some config -> enabled config = true ->
               m ∈ enabledModels config ->
               Toolbar.PROVIDER_REGISTRY e !! p = Some meta ->
               Toolbar.modelItem p meta m ∈ l)).
    { intros Hr Hwhy. destruct (IH _ _ p config meta m Hr) as [Hacc Hin].
      split; [exact Hacc|]. intros Hp Hh Hc He Hm Hreg.
      apply elem_of_cons in Hp as [->|Hp]; [|now apply Hin].
      destruct Hwhy as [Hne|[Hq|[Hn|(c & Hc' & [Hd|Hd])]]]; try congruence.
      rewrite Hc in Hc'. injection Hc' as <-. rewrite Hd in Hm.
      now apply not_elem_of_nil in Hm. }
    case_bool_decide as Hh; [apply Hskip; auto|].
    destruct (Toolbar.providers e !! q) as [c|] eqn:Hc; [|apply Hskip; auto].
    destruct (enabled c) eqn:He; cbn [andb] in *;
      [|apply Hskip; [exact Hadd | right; right; right; eauto]].
    destruct (enabledModels c) as [|m0 ms] eqn:Hms; cbn [length Nat.ltb Nat.leb] in *;
      [apply Hskip; [exact Hadd | right; right; right; eauto]|].
    destruct (Toolbar.PROVIDER_REGISTRY e !! q) as [meta'|] eqn:Hm;
      [|discriminate].
    destruct (IH _ _ p config meta m Hadd) as [Hacc Hin].
    split.
    + intros x Hx. apply Hacc, elem_of_app. now left.
    + intros Hp Hhp Hcp Hep Hmp Hregp.
      apply elem_of_cons in Hp as [->|Hp]; [|now apply Hin].
      rewrite Hc in Hcp. injection Hcp as <-. rewrite Hm in Hregp.
      injection Hregp as <-. apply Hacc, elem_of_app. right.
      apply list_elem_of_fmap. exists m. split; [reflexivity|].
      now rewrite <- Hms.
Qed.

(** X13: the model list that is returned is the Huntly server model, if a
    base url is configured and the Huntly shortcuts are enabled, followed by
    models that each are an enabled model of an enabled provider among the
    available ones, none of them of the Huntly server: a model of a provider
    that is disabled, not stored or not available never appears. *)
Theorem models_come_from_enabled_providers e r :
  Toolbar.getAIToolbarData e = Some r ->
  exists rest,
    Toolbar.models r
    = (if huntlyServerUsed e then [Toolbar.huntlyServerModel] else []) ++ rest /\
    forall x, x ∈ rest ->
      surfacedBy e x /\ Toolbar.provider x <> lit "huntly-server".
Proof.
  unfold Toolbar.getAIToolbarData, huntlyServerUsed.
  destruct (Toolbar.addProviderModels e _ _) as [l|] eqn:Hadd; [|discriminate].
  intros [= <-]. cbn [Toolbar.models].
  destruct (addProviderModels_adds e _ _ _ (fun p Hp => Hp) Hadd)
    as (rest & -> & Hrest).
  exists rest. split; [reflexivity|]. intros x Hx.
  split; [now apply Hrest|].
  destruct (Hrest x Hx) as (p & config & meta & m & _ & Hp & _ & _ & _ & _ & ->).
  exact Hp.
Qed.

(** X14: every enabled model of every enabled provider among the available
    ones is in the model list that is returned, under the id made of the
    provider type, a colon and the model id. *)
Theorem enabled_models_are_all_listed e r p config meta m :
  Toolbar.getAIToolbarData e = Some r ->
  p ∈ Toolbar.availableProviders e -> p <> lit "huntly-server" ->
  Toolbar.providers e !! p = Some config -> enabled config = true ->
  m ∈ enabledModels config ->
  Toolbar.PROVIDER_REGISTRY e !! p = Some meta ->
  exists x, x ∈ Toolbar.models r /\
    Toolbar.id x = p ++ lit ":" ++ m /\ Toolbar.provider x = p /\
    Toolbar.providerName x = Toolbar.displayName meta.
Proof.
  unfold Toolbar.getAIToolbarData.
  destruct (Toolbar.addProviderModels e _ _) as [l|] eqn:Hadd; [|discriminate].
  intros [= <-] Hp Hh Hc He Hm Hreg. cbn [Toolbar.models].
  exists (Toolbar.modelItem p meta m). split; [|repeat split].
  now apply (proj2 (addProviderModels_complete e _ _ _ p config meta m Hadd)).
Qed.

(** X15: the default model is one of the models of the list, and there is
    none exactly when the list is empty. *)
Theorem default_model_is_listed e r :
  Toolbar.getAIToolbarData e = Some r ->
  (Toolbar.defaultModel r = None <-> Toolbar.models r = []) /\
  (forall m, Toolbar.defaultModel r = Some m -> m ∈ Toolbar.models r).
Proof.
  unfold Toolbar.getAIToolbarData.
  destruct (Toolbar.addProviderModels e _ _) as [l|]; [|discriminate].
  intros [= <-]. cbn [Toolbar.models Toolbar.defaultModel].
  unfold Toolbar.resolveDefaultModel.
  destruct l as [|first rest]; [split; [tauto | discriminate]|].
  split.
  - split; [|discriminate]. repeat case_match; discriminate.
  - intros m. destruct (truthyOpt _); [|intros [= <-]; left].
    destruct (List.find _ _) as [x|] eqn:Hf; intros [= <-]; [|left].
    destruct (find_first _ _ _ Hf) as (pre & post & -> & _).
    apply elem_of_app. right. left.
Qed.

(** X16: [getAIToolbarData] fails while it builds the model list exactly
    when an available provider other than the Huntly server is enabled with
    at least one enabled model and [PROVIDER_REGISTRY] has no entry for
    it. *)
Theorem toolbar_data_fails_on_unregistered_provider e :
  Toolbar.getAIToolbarData e = None <->
  exists p config,
    p ∈ Toolbar.availableProviders e /\ p <> lit "huntly-server" /\
    Toolbar.providers e !! p = Some config /\ enabled config = true /\
    enabledModels config <> [] /\
    Toolbar.PROVIDER_REGISTRY e !! p = None.
Proof.
  unfold Toolbar.getAIToolbarData.
  generalize (if truthy (Toolbar.baseUrl e) && Toolbar.huntlyShortcutsEnabled e
              then [Toolbar.huntlyServerModel] else []).
  intros acc.
  assert (Hgen : forall available modelList,
            Toolbar.addProviderModels e available modelList = None <->
            exists p config,
              p ∈ available /\ p <> lit "huntly-server" /\
              Toolbar.providers e !! p = Some config /\ enabled config = true /\
              enabledModels config <> [] /\
              Toolbar.PROVIDER_REGISTRY e !! p = None).
  { induction available as [|q rest IH]; intros modelList;
      cbn [Toolbar.addProviderModels].
    - split; [discriminate|]. intros (p & c & Hp & _).
      now apply not_elem_of_nil in Hp.
    - assert (Hskip : forall l,
                (q = lit "huntly-server" \/ Toolbar.providers e !! q = None
                 \/ (exists c, Toolbar.providers e !! q = Some c /\
                       (enabled c = false \/ enabledModels c = []))
                 \/ is_Some (Toolbar.PROVIDER_REGISTRY e !! q)) ->
                (Toolbar.addProviderModels e rest l = None <->
                 exists p config,
                   p ∈ q :: rest /\ p <> lit "huntly-server" /\
                   Toolbar.providers e !! p = Some config /\
                   enabled config = true /\ enabledModels config <> [] /\
                   Toolbar.PROVIDER_REGISTRY e !! p = None)).
      { intros l Hwhy. rewrite IH. split.
        - intros (p & c & Hp & Hrest). exists p, c. split; [now right | exact Hrest].
        - intros (p & c & Hp & Hh & Hc & He & Hm & Hreg).
          apply elem_of_cons in Hp as [->|Hp];
            [|exists p, c; repeat split; assumption].
          exfalso.
          destruct Hwhy as [Hq|[Hn|[(c' & Hc' & [Hd|Hd])|[x Hx]]]];
            congruence. }
      case_bool_decide as Hh; [apply Hskip; auto|].
      destruct (Toolbar.providers e !! q) as [c|] eqn:Hc; [|apply Hskip; auto].
      destruct (enabled c) eqn:He; cbn [andb];
        [|apply Hskip; right; right; left; eauto].
      destruct (enabledModels c) as [|m0 ms] eqn:Hms;
        cbn [length Nat.ltb Nat.leb];
        [apply Hskip; right; right; left; eauto|].
      destruct (Toolbar.PROVIDER_REGISTRY e !! q) as [meta|] eqn:Hm.
      + apply Hskip. right; right; right. eauto.
      + split; [|reflexivity]. intros _. exists q, c.
        repeat split; try assumption; [left | now rewrite Hms]. }
  specialize (Hgen (Toolbar.availableProviders e) acc).
  destruct (Toolbar.addProviderModels e _ acc) as [l|].
  - split; [discriminate|]. intros Hex. apply Hgen in Hex. discriminate.
  - split; [|reflexivity]. intros _. now apply Hgen.
Qed.

(** X17: the enabled prompts are split between the user prompts and the
    system prompts: a prompt is a user prompt exactly when it is an enabled
    prompt that is not a system prompt, a system prompt exactly when it is
    an enabled system prompt, and together the two lists have as many
    prompts as there are enabled ones; a disabled prompt is in neither. *)
Theorem prompts_are_split prompts e fetched :
  let s := Shortcuts.externalShortcuts prompts e fetched in
  (forall p, p ∈ Shortcuts.userPrompts s <->
     p ∈ prompts /\ Shortcuts.prompt_enabled p = true
     /\ Shortcuts.isSystem p = false) /\
  (forall p, p ∈ Shortcuts.systemPrompts s <->
     p ∈ prompts /\ Shortcuts.prompt_enabled p = true
     /\ Shortcuts.isSystem p = true) /\
  (length (Shortcuts.userPrompts s) + length (Shortcuts.systemPrompts s)
   = length (List.filter Shortcuts.prompt_enabled prompts))%nat.
Proof.
  cbn [Shortcuts.externalShortcuts Shortcuts.userPrompts Shortcuts.systemPrompts].
  split; [|split].
  - intros p. rewrite !list_elem_of_In, !filter_In, negb_true_iff. tauto.
  - intros p. rewrite !list_elem_of_In, !filter_In. tauto.
  - induction (List.filter Shortcuts.prompt_enabled prompts) as [|p l IH];
      [reflexivity|].
    cbn [List.filter]. destruct (Shortcuts.isSystem p); cbn [negb length]; lia.
Qed.

(** X18: shortcuts of the Huntly server are returned only together with the
    Huntly server model: when the list of Huntly shortcuts is not empty, a
    base url is configured, the shortcuts are enabled, and the model list
    starts with the Huntly server model. *)
Theorem huntly_shortcuts_come_with_huntly_model prompts e fetched r :
  Toolbar.getAIToolbarData e = Some r ->
  Shortcuts.huntlyShortcuts (Shortcuts.externalShortcuts prompts e fetched) <> [] ->
  huntlyServerUsed e = true /\
  Shortcuts.huntlyShortcutsEnabled (Shortcuts.externalShortcuts prompts e fetched)
  = true /\
  exists rest, Toolbar.models r = Toolbar.huntlyServerModel :: rest.
Proof.
  intros Hr Hs. unfold Shortcuts.externalShortcuts in *.
  cbn [Shortcuts.huntlyShortcuts Shortcuts.huntlyShortcutsEnabled] in *.
  unfold huntlyServerUsed, Toolbar.getAIToolbarData in *.
  destruct (truthy (Toolbar.baseUrl e)) eqn:Hb;
    destruct (Toolbar.huntlyShortcutsEnabled e) eqn:Hf;
    cbn [andb] in *; try congruence.
  repeat split.
  destruct (Toolbar.addProviderModels e _ _) as [l|] eqn:Hadd; [|discriminate].
  injection Hr as <-. cbn [Toolbar.models].
  destruct (addProviderModels_adds e _ _ _ (fun p Hp => Hp) Hadd)
    as (rest & -> & _). eauto.
Qed.

Section MoreRouting.

Context `{Externals}.

(** X19: a model taken from the model list is resolved to the model id it
    was listed for: for a provider type without a colon, the task whose
    selected model has the provider and the id of the listed model asks the
    provider for exactly that model id, also when the model id itself has
    colons. *)
Theorem listed_model_id_round_trip pid t c st p meta m providers config throws :
  58 ∉ p ->
  selectedModel t
  = Some {| sm_provider := Toolbar.provider (Toolbar.modelItem p meta m);
            sm_id := Toolbar.id (Toolbar.modelItem p meta m) |} ->
  providers !! p = Some config -> enabled config = true ->
  createProviderModel config m = true ->
  afterFirstColon (Toolbar.id (Toolbar.modelItem p meta m)) = m /\
  resumeVercel pid t c AwaitProvidersStorage (RProvidersStorage providers)
    throws st
  = suspend pid (Vercel t c (AwaitPromptsSettings m)) st.
Proof.
  intros Hp Hsm Hc He Hm.
  assert (Hid : afterFirstColon (Toolbar.id (Toolbar.modelItem p meta m)) = m)
    by (cbn [Toolbar.modelItem Toolbar.id]; now apply afterFirstColon_app).
  split; [exact Hid|].
  unfold resumeVercel. rewrite Hsm. cbn [sm_provider sm_id].
  cbn [Toolbar.modelItem Toolbar.provider]. rewrite Hc, He.
  cbn [Toolbar.modelItem Toolbar.id] in Hid |- *. rewrite Hid, Hm. reflexivity.
Qed.

(** X20: a process command for the Huntly server that does not skip the
    preview first sends the preview message and nothing else: nothing is
    registered or started until the tab acknowledges, and only then is the
    processing-start message sent. *)
Theorem preview_precedes_processing st t :
  isHuntlyServer t = true ->
  let pid := length (activations st) in
  let st1 := step st (ShortcutsProcess t false false) in
  let st2 := step st1 (Settle pid RAck false) in
  trace st1
  = trace st ++ [(Some pid, SendMessage (tabId t) (ShortcutsPreview (taskId t)))] /\
  sseTasks st1 = sseTasks st /\
  controllers st1 = controllers st /\
  vercelAIAbortControllers st1 = vercelAIAbortControllers st /\
  trace st2
  = trace st1
    ++ [(Some (S pid),
         SendMessage (tabId t)
           (ShortcutsProcessingStart (shortcutName t) (shortcutName t) (taskId t)))].
Proof.
  intros Hh pid st1 st2.
  assert (Hst1 : st1 = suspend pid (PreviewAck t)
            (emit (Some pid) (SendMessage (tabId t) (ShortcutsPreview (taskId t))) st)).
  { subst st1. cbn [step]. rewrite Hh. reflexivity. }
  repeat split; try (rewrite Hst1; reflexivity).
  subst st2. cbn [step]. rewrite Hst1.
  rewrite lookup_suspend by (autorewrite with proj; subst pid; lia).
  cbn [resume]. unfold startProcessing, sendMessage,
    sseRequestManager.processContentWithShortcutStream.
  cbn [newAbortController from_option id].
  rewrite length_suspend_old
    by (apply length_suspend; autorewrite with proj; subst pid; lia).
  autorewrite with proj.
  rewrite (length_suspend_eq pid) by reflexivity. reflexivity.
Qed.

End MoreRouting.

(** ** Saving a page and opening its detail *)

(** X21: the command saves before anything else and goes on only after a
    save that returned a positive page id: without a page url it makes no
    call at all; the library and detail calls, when made, carry the id the
    save returned, which is positive; and the calls made are always an
    initial part of save, add to library, get detail, get collection tree. *)
Theorem save_detail_calls_in_order inputPage ans :
  let calls := fst (SaveDetail.save_detail_init inputPage ans) in
  (truthyOpt (SaveDetail.url <$> inputPage) = false -> calls = []) /\
  (forall id,
     SaveDetail.SavePageToLibrary id ∈ calls \/ SaveDetail.GetPageDetail id ∈ calls ->
     SaveDetail.saved ans
     = SaveDetail.Fulfilled (SaveDetail.SaveParsed (Some id)) /\ (0 < id)%Z) /\
  (SaveDetail.GetCollectionTree ∈ calls ->
   exists d, SaveDetail.detail ans = SaveDetail.Fulfilled d) /\
  (exists page id,
     calls `prefix_of` [SaveDetail.SaveArticle page;
                        SaveDetail.SavePageToLibrary id;
                        SaveDetail.GetPageDetail id;
                        SaveDetail.GetCollectionTree]).
Proof.
  assert (Hleaf : forall (calls : list SaveDetail.Call) page id,
            calls `prefix_of` [SaveDetail.SaveArticle page;
                               SaveDetail.SavePageToLibrary id;
                               SaveDetail.GetPageDetail id;
                               SaveDetail.GetCollectionTree] ->
            (truthyOpt (SaveDetail.url <$> inputPage) = false -> calls = []) ->
            (calls <> [] /\ calls <> [SaveDetail.SaveArticle page] ->
             SaveDetail.saved ans
             = SaveDetail.Fulfilled (SaveDetail.SaveParsed (Some id))
             /\ (0 < id)%Z) ->
            (SaveDetail.GetCollectionTree ∈ calls ->
             exists d, SaveDetail.detail ans = SaveDetail.Fulfilled d) ->
            (truthyOpt (SaveDetail.url <$> inputPage) = false -> calls = []) /\
            (forall id',
               SaveDetail.SavePageToLibrary id' ∈ calls
               \/ SaveDetail.GetPageDetail id' ∈ calls ->
               SaveDetail.saved ans
               = SaveDetail.Fulfilled (SaveDetail.SaveParsed (Some id'))
               /\ (0 < id')%Z) /\
            (SaveDetail.GetCollectionTree ∈ calls ->
             exists d, SaveDetail.detail ans = SaveDetail.Fulfilled d) /\
            (exists page id,
               calls `prefix_of` [SaveDetail.SaveArticle page;
                                  SaveDetail.SavePageToLibrary id;
                                  SaveDetail.GetPageDetail id;
                                  SaveDetail.GetCollectionTree])).
  { intros calls page id Hpre Hnone Hid Htree.
    split; [exact Hnone|]. split; [|split; [exact Htree | eauto]].
    intros id' Hin.
    assert (Hsub : forall x, x ∈ calls ->
              x ∈ [SaveDetail.SaveArticle page; SaveDetail.SavePageToLibrary id;
                   SaveDetail.GetPageDetail id; SaveDetail.GetCollectionTree]).
    { destruct Hpre as (k & ->). intros x Hx. apply elem_of_app. now left. }
    assert (id' = id) as ->.
    { destruct Hin as [Hin|Hin]; apply Hsub in Hin;
        repeat (apply elem_of_cons in Hin as [Hin|Hin];
                [try discriminate; try (now injection Hin)|]);
        now apply not_elem_of_nil in Hin. }
    apply Hid. split.
    - intros ->. destruct Hin as [Hin|Hin]; now apply not_elem_of_nil in Hin.
    - intros ->. destruct Hin as [Hin|Hin];
        apply list_elem_of_singleton in Hin; discriminate. }
  set (nopage := {| SaveDetail.title := []; SaveDetail.description := [];
                    SaveDetail.url := []; SaveDetail.domain := [];
                    SaveDetail.faviconUrl := []; SaveDetail.thumbUrl := [];
                    SaveDetail.content := [] |}).
  unfold SaveDetail.save_detail_init.
  destruct inputPage as [page|]; cbn [fmap option_fmap option_map truthyOpt] in *;
    [|apply (Hleaf [] nopage 0%Z); [apply prefix_nil | auto | intros [? _]; congruence
                                   | intros Hin; now apply not_elem_of_nil in Hin]].
  destruct (truthy (SaveDetail.url page)) eqn:Hu; cbn [negb fst];
    [|apply (Hleaf [] page 0%Z); [apply prefix_nil | auto | intros [? _]; congruence
                                 | intros Hin; now apply not_elem_of_nil in Hin]].
  assert (Hone : forall id,
            [SaveDetail.SaveArticle page]
              `prefix_of` [SaveDetail.SaveArticle page;
                           SaveDetail.SavePageToLibrary id;
                           SaveDetail.GetPageDetail id;
                           SaveDetail.GetCollectionTree])
    by (intros id; eexists; reflexivity).
  assert (Hsave : forall reply,
            let calls := fst ([SaveDetail.SaveArticle page], reply : SaveDetail.Reply) in
            (true = false -> calls = []) /\
            (forall id',
               SaveDetail.SavePageToLibrary id' ∈ calls
               \/ SaveDetail.GetPageDetail id' ∈ calls ->
               SaveDetail.saved ans
               = SaveDetail.Fulfilled (SaveDetail.SaveParsed (Some id'))
               /\ (0 < id')%Z) /\
            (SaveDetail.GetCollectionTree ∈ calls ->
             exists d, SaveDetail.detail ans = SaveDetail.Fulfilled d) /\
            (exists page id,
               calls `prefix_of` [SaveDetail.SaveArticle page;
                                  SaveDetail.SavePageToLibrary id;
                                  SaveDetail.GetPageDetail id;
                                  SaveDetail.GetCollectionTree])).
  { intros reply. apply (Hleaf _ page 0%Z); cbn [fst];
      [apply Hone | discriminate | intros [_ ?]; congruence
      | intros Hin; apply list_elem_of_singleton in Hin; discriminate]. }
  destruct (SaveDetail.saved ans) as [[|m|[id|]]|m] eqn:Hs; try apply Hsave.
  destruct (Z.ltb_spec 0 id) as [Hid|Hid]; [|apply Hsave].
  destruct (SaveDetail.libraryResult ans) as [op|m]; cbn [fst];
    [destruct (SaveDetail.detail ans) as [d|m] eqn:Hd; cbn [fst];
     [destruct (SaveDetail.collectionTree ans) as [tree|m]; cbn [fst]|]|].
  all: apply (Hleaf _ page id); cbn [fst];
    [ eexists; reflexivity | discriminate | intros _; split; auto
    | intros Hin; eauto;
      repeat (apply elem_of_cons in Hin as [Hin|Hin]; [discriminate|]);
      now apply not_elem_of_nil in Hin ].
Qed.

(** X22: a successful reply means that the four calls were made in order
    with the positive page id of the reply; the page of the reply has a url,
    keeps the fields that are only copied over, and has every merged field
    that the input page had, the stored page's value taking precedence. *)
Theorem save_detail_success inputPage ans id op tree page' :
  snd (SaveDetail.save_detail_init inputPage ans)
  = SaveDetail.Success id op tree page' ->
  exists page d,
    inputPage = Some page /\
    fst (SaveDetail.save_detail_init inputPage ans)
    = [SaveDetail.SaveArticle page; SaveDetail.SavePageToLibrary id;
       SaveDetail.GetPageDetail id; SaveDetail.GetCollectionTree] /\
    (0 < id)%Z /\
    SaveDetail.detail ans = SaveDetail.Fulfilled d /\
    truthy (SaveDetail.url page') = true /\
    SaveDetail.content page' = SaveDetail.content page /\
    (truthy (SaveDetail.title page) = true ->
     truthy (SaveDetail.title page') = true) /\
    (forall db, d = Some db -> truthy (SaveDetail.db_title db) = true ->
       SaveDetail.title page' = SaveDetail.db_title db) /\
    (d = None -> page' = page).
Proof.
  unfold SaveDetail.save_detail_init, SaveDetail.caught.
  destruct inputPage as [page|]; [|discriminate].
  destruct (truthy (SaveDetail.url page)) eqn:Hu; cbn [negb]; [|discriminate].
  destruct (SaveDetail.saved ans) as [[|m|[pageId|]]|m]; try discriminate.
  destruct (Z.ltb_spec 0 pageId) as [Hid|Hid]; [|discriminate].
  destruct (SaveDetail.libraryResult ans) as [op'|m]; [|discriminate].
  destruct (SaveDetail.detail ans) as [d|m]; [|discriminate].
  destruct (SaveDetail.collectionTree ans) as [tree'|m]; [|discriminate].
  cbn [fst snd]. intros [= <- <- <- <-].
  exists page, d. repeat split; try assumption.
  - cbn [SaveDetail.mergedPage SaveDetail.url]. unfold orElse.
    destruct (truthy (SaveDetail.db_url (SaveDetail.dbPageOf d))) eqn:Hd;
      assumption.
  - cbn [SaveDetail.mergedPage SaveDetail.title]. unfold orElse. intros Ht.
    destruct (truthy (SaveDetail.db_title (SaveDetail.dbPageOf d))) eqn:Hd;
      assumption.
  - intros db -> Ht. cbn [SaveDetail.mergedPage SaveDetail.title
      SaveDetail.dbPageOf from_option id]. unfold orElse. now rewrite Ht.
  - intros ->. destruct page. reflexivity.
Qed.

(** X23: every failure reply of the command carries an error text that is
    not empty, a rejection without a message included. *)
Theorem save_detail_failure_has_text inputPage ans error :
  snd (SaveDetail.save_detail_init inputPage ans) = SaveDetail.Failure error ->
  truthy error = true.
Proof.
  assert (Hc : forall m e, SaveDetail.caught m = SaveDetail.Failure e ->
            truthy e = true).
  { intros m e. unfold SaveDetail.caught, orElse.
    destruct (truthy (default [] m)) eqn:Hm; intros [= <-];
      [exact Hm | reflexivity]. }
  unfold SaveDetail.save_detail_init.
  repeat case_match; cbn [snd]; intros Hr;
    try (injection Hr as <-; reflexivity);
    try discriminate; eauto.
Qed.
(** ** Scenarios *)

#[local] Existing Instance scenarioExternals.

(** C1 fails on the code: the [onRemoved] listener cancels the tasks of the
    managed-server task manager only.  With a direct-provider task and a
    managed-server task live for tab 7, closing the tab cancels one task,
    not two: the controller of the direct-provider task is not aborted and
    stays registered, and the next chunk of its stream is still sent to the
    closed tab. *)
Theorem tab_close_leaves_direct_task_running :
  let closed := tabs_onRemoved 7 streamingState in
  fst closed = 1%nat /\
  aborted 1 (snd closed) = true /\
  aborted 0 (snd closed) = false /\
  vercelAIAbortControllers (snd closed) !! lit "t1" = Some 0%nat /\
  messagesBy 0 (trace (step (snd closed) (Settle 0 (RChunk (lit "jour")) false)))
  = messagesBy 0 (trace (snd closed))
    ++ [(7%Z, ShortcutsProcessData (lit "jour") (lit "Bonjour")
                (lit "Translate") (lit "t1"))].
Proof. vm_compute. repeat split. Qed.

(** C2 fails on the code as stated: after two process commands with the
    task id t1, the registry holds the second controller alone; the first
    controller is neither aborted nor held by the registry, and cancelling
    t1 aborts the second controller only. *)
Lemma second_registration_leaks_first_handle :
  map_to_list (vercelAIAbortControllers registeredTwice) = [(lit "t1", 1%nat)] /\
  aborted 0 (step registeredTwice (ShortcutsCancel (lit "t1"))) = false /\
  aborted 1 (step registeredTwice (ShortcutsCancel (lit "t1"))) = true /\
  ~ (aborted 0 registeredTwice = true \/
     exists k, vercelAIAbortControllers registeredTwice !! k = Some 0%nat).
Proof.
  assert (Hreg : map_to_list (vercelAIAbortControllers registeredTwice)
                 = [(lit "t1", 1%nat)]) by (vm_compute; reflexivity).
  split; [exact Hreg|]. split; [vm_compute; reflexivity|].
  split; [vm_compute; reflexivity|].
  intros [Ha|[k Hk]]; [vm_compute in Ha; discriminate|].
  apply elem_of_map_to_list in Hk. rewrite Hreg in Hk.
  apply list_elem_of_singleton in Hk. discriminate.
Qed.

(** The task id t1 registered a second time: the entry becomes the second
    controller. *)
Lemma second_registration_overwrites_witness :
  let st := run initial [ShortcutsProcess directTask false false] in
  vercelAIAbortControllers st !! lit "t1" = Some 0%nat /\
  vercelAIAbortControllers (startProcessingWithVercelAI directTask false st)
    !! lit "t1" = Some 1%nat.
Proof.
  intros st.
  assert (Hk : vercelAIAbortControllers st !! taskId directTask = Some 0%nat)
    by (vm_compute; reflexivity).
  split; [exact Hk|].
  exact (proj1 (second_registration_overwrites
                  [ShortcutsProcess directTask false false]
                  directTask false 0%nat Hk)).
Defined.

(** The streaming task cancelled after its first chunk: the chunk and the
    end of the stream that follow send nothing. *)
Lemma no_callbacks_after_abort_witness :
  let st := step streamingState (ShortcutsCancel (lit "t1")) in
  aborted 0 st = true /\
  messagesBy 0
    (trace (run st [Settle 0 (RChunk (lit "jour")) false;
                    Settle 0 RDone false;
                    Settle 0 RReturned false]))
  = messagesBy 0 (trace st).
Proof.
  intros st. split; [vm_compute; reflexivity|].
  apply (no_callbacks_after_abort st 0 directTask 0 (Streaming (lit "Bon")));
    vm_compute; reflexivity.
Defined.

(** The streaming task is cancelled and its stream is then rejected with
    an abort error: no error message is sent.  The stream of the task that
    is not cancelled is rejected: the error is sent to tab 7. *)
Lemma cancellation_is_not_an_error_witness :
  (let st := step streamingState (ShortcutsCancel (lit "t1")) in
   aborted 0 st = true /\
   errorsBy 0
     (trace (run st [Settle 0 (RRejected (Some (lit "AbortError"))) false]))
   = errorsBy 0 (trace st)) /\
  exists message,
    errorsBy 0 (trace (step streamingState (Settle 0 (RRejected None) false)))
    = errorsBy 0 (trace streamingState)
      ++ [(7%Z, ShortcutsProcessError message (lit "Translate") (lit "t1"))].
Proof.
  split.
  - intros st.
    assert (Hl : activations st !! 0%nat
                 = Some (Vercel directTask 0 (Streaming (lit "Bon"))))
      by (vm_compute; reflexivity).
    assert (Ha : aborted 0 st = true) by (vm_compute; reflexivity).
    split; [exact Ha|].
    exact (proj1 (cancellation_is_not_an_error st 0 directTask 0
                    (Streaming (lit "Bon")) Hl) Ha
             [Settle 0 (RRejected (Some (lit "AbortError"))) false]).
  - assert (Hl : activations streamingState !! 0%nat
                 = Some (Vercel directTask 0 (Streaming (lit "Bon"))))
      by (vm_compute; reflexivity).
    apply (proj2 (proj2 (cancellation_is_not_an_error streamingState 0
                           directTask 0 (Streaming (lit "Bon")) Hl))
             (RRejected None));
      [vm_compute; reflexivity | vm_compute; reflexivity | discriminate].
Defined.

(** The default provider has no enabled model: the default model is the
    first model of the other provider. *)
Lemma default_model_resolution_witness :
  Toolbar.defaultModel
  <$> Toolbar.getAIToolbarData scenarioToolbar
  = Some (Some {| Toolbar.id := lit "openai:gpt-4o";
                  Toolbar.name := lit "GPT-4o";
                  Toolbar.provider := lit "openai";
                  Toolbar.providerName := lit "OpenAI" |}).
Proof.
  rewrite (proj2 default_model_resolution scenarioToolbar
             (lit "anthropic") (lit "openai")
             {| enabled := true; enabledModels := [] |}
             {| Toolbar.displayName := lit "OpenAI";
                Toolbar.defaultModels :=
                  [ {| Toolbar.meta_id := lit "gpt-4o";
                       Toolbar.meta_name := lit "GPT-4o" |} ] |}
             (lit "gpt-4o") (lit "gpt-4o-mini"));
    try (vm_compute; reflexivity).
  vm_compute. discriminate.
Defined.

(** C6 fails on the code as stated: a forced check of an internal browser
    page performs no remote lookup, and neither does a forced check of an
    http url when no server base url is configured. *)
Lemma forced_check_without_lookup :
  remoteLookups (check (Some huntlyBase) (Some NoResult) 1 internalPage true initial)
  = remoteLookups initial /\
  remoteLookups (check (Some []) (Some NoResult) 1 urlA true initial)
  = remoteLookups initial /\
  ~ (forall b a tab u st,
       remoteLookups (check b a tab u true st) <> remoteLookups st).
Proof.
  split; [vm_compute; reflexivity|]. split; [vm_compute; reflexivity|].
  intros Hall.
  apply (Hall (Some huntlyBase) (Some NoResult) 1%Z internalPage initial).
  vm_compute. reflexivity.
Qed.

(** Three checks of tab 1, none forced: url A (the lookup fails), url A
    again, url B. *)
Lemma presence_cache_lookups_witness :
  let st1 := check (Some huntlyBase) None 1 urlA false initial in
  let st2 := check (Some huntlyBase) (Some NoResult) 1 urlA false st1 in
  let st3 := check (Some huntlyBase) (Some NoResult) 1 urlB false st2 in
  remoteLookups st2 = remoteLookups st1 /\
  remoteLookups st3 = remoteLookups st2 ++ [urlB].
Proof.
  apply (proj2 (proj2 (proj2 presence_cache_lookups huntlyBase 1%Z urlA initial
                                eq_refl eq_refl)));
    [reflexivity | vm_compute; discriminate].
Defined.



(** A forced check of an internal browser page. *)
Lemma non_http_check_short_circuits_witness :
  let st' := updateBadgeForTab 1 internalPage true initial in
  activations st' = [Finished] /\
  trace st' = [(Some 0%nat, SetBadgeText [] 1)] /\
  badgeCache st' = badgeCache initial /\
  remoteLookups st' = remoteLookups initial /\
  badgeCache (check (Some huntlyBase) (Some (PageData (Some 5%Z))) 1
                internalPage true initial) = badgeCache initial /\
  remoteLookups (check (Some huntlyBase) (Some (PageData (Some 5%Z))) 1
                   internalPage true initial) = remoteLookups initial.
Proof.
  exact (non_http_check_short_circuits (Some huntlyBase)
           (Some (PageData (Some 5%Z))) 1 internalPage true initial eq_refl).
Defined.

(** A check of url A whose lookup is rejected, followed by another check of
    url A. *)
Lemma cache_entry_precedes_lookup_witness :
  let st := updateBadgeForTab 1 urlA false initial in
  let st1 := resumeBadgeBaseUrl 0 1 urlA false (RBaseUrl huntlyBase) st in
  badgeCache st1 !! 1%Z = Some urlA /\
  forall b' a',
    remoteLookups
      (check b' a' 1 urlA false (step st1 (Settle 0 (RRejected None) false)))
    = remoteLookups (step st1 (Settle 0 (RRejected None) false)).
Proof.
  intros st st1.
  assert (Hle : (0 <= length (activations st))%nat) by lia.
  assert (Hne : remoteLookups st1 <> remoteLookups st)
    by (vm_compute; discriminate).
  destruct (cache_entry_precedes_lookup 0 1 urlA false (RBaseUrl huntlyBase)
              st Hle Hne) as (_ & Hc & _ & Hs).
  split; [exact Hc|].
  exact (proj2 (proj2 (Hs (RRejected None) false))).
Defined.

(** ** Further scenarios *)

(** The streaming task receives two more chunks and the end of the
    stream. *)
Lemma stream_forwarded_in_order_witness :
  messagesBy 0
    (trace (run streamingState
              [Settle 0 (RChunk (lit "jour")) false;
               Settle 0 (RChunk (lit "!")) false;
               Settle 0 RDone false]))
  = messagesBy 0 (trace streamingState)
    ++ [(7%Z, ShortcutsProcessData (lit "jour") (lit "Bonjour")
                (lit "Translate") (lit "t1"));
        (7%Z, ShortcutsProcessData (lit "!") (lit "Bonjour!")
                (lit "Translate") (lit "t1"));
        (7%Z, ShortcutsProcessResult (lit "Bonjour!")
                (lit "Translate") (lit "t1"))].
Proof.
  assert (Hl : activations streamingState !! 0%nat
               = Some (Vercel directTask 0 (Streaming (lit "Bon"))))
    by (vm_compute; reflexivity).
  assert (Ha : aborted 0 streamingState = false) by (vm_compute; reflexivity).
  exact (proj1 (stream_forwarded_in_order 0 directTask 0 [lit "jour"; lit "!"]
                  streamingState (lit "Bon") Hl Ha)).
Defined.

(** Forwarding the second chunk throws. *)
Lemma chunk_send_failure_stops_forwarding_witness :
  trace (step streamingState (Settle 0 (RChunk (lit "jour")) true))
  = trace streamingState.
Proof.
  assert (Hl : activations streamingState !! 0%nat
               = Some (Vercel directTask 0 (Streaming (lit "Bon"))))
    by (vm_compute; reflexivity).
  assert (Ha : aborted 0 streamingState = false) by (vm_compute; reflexivity).
  exact (proj1 (proj2 (chunk_send_failure_stops_forwarding streamingState 0
                         directTask 0 (lit "Bon") (lit "jour") Hl Ha))).
Defined.

(** The stream of the task ends; a cancel command follows. *)
Lemma termination_deregisters_witness :
  cancelVercelAITask (lit "t1") (step streamingState (Settle 0 RDone false))
  = (false, step streamingState (Settle 0 RDone false)).
Proof.
  assert (Hl : activations streamingState !! 0%nat
               = Some (Vercel directTask 0 (Streaming (lit "Bon"))))
    by (vm_compute; reflexivity).
  assert (Hf : activations (step streamingState (Settle 0 RDone false)) !! 0%nat
               = Some Finished) by (vm_compute; reflexivity).
  exact (proj2 (termination_deregisters streamingState 0 directTask 0
                  (Streaming (lit "Bon")) RDone false Hl Hf)).
Defined.

(** The provider storage has no entry for the provider of the task. *)
Lemma provider_not_usable_is_reported_witness :
  trace (step startedState (Settle 0 (RProvidersStorage ∅) false))
  = trace startedState
    ++ [(Some 0%nat,
         SendMessage 7
           (ShortcutsProcessError
              (lit "Provider openai is not configured or enabled")
              (lit "Translate") (lit "t1")))].
Proof.
  assert (Hl : activations startedState !! 0%nat
               = Some (Vercel directTask 0 AwaitProvidersStorage))
    by (vm_compute; reflexivity).
  assert (Ha : aborted 0 startedState = false) by (vm_compute; reflexivity).
  exact (proj1 (provider_not_usable_is_reported startedState 0 directTask 0
                  openaiModel ∅ Hl Ha eq_refl (or_introl eq_refl))).
Defined.

(** Tab 1 navigates to url A inside the page. *)
Lemma url_change_is_rechecked_witness :
  remoteLookups
    (run initial [TabUpdated 1 false (Some urlA) None;
                  Settle 0 (RBaseUrl huntlyBase) false;
                  Settle 0 (RPageOperateResult NoResult) false])
  = [urlA].
Proof.
  exact (proj1 (url_change_is_rechecked initial 1 urlA None huntlyBase
                  (Some NoResult) eq_refl eq_refl)).
Defined.

(** The active tab is tab 1 at url A. *)
Lemma refresh_forces_active_tab_witness :
  remoteLookups
    (run (refreshBadgeForActiveTab initial)
       [Settle 0 (RTab (Some (1%Z, Some urlA))) false;
        Settle 1 (RBaseUrl huntlyBase) false;
        Settle 1 (RPageOperateResult NoResult) false])
  = [urlA].
Proof.
  assert (Hid : 1%Z <> 0%Z) by discriminate.
  exact (proj1 (refresh_forces_active_tab initial 1 urlA huntlyBase
                  (Some NoResult) Hid eq_refl eq_refl)).
Defined.

(** The user switches to tab 1, which is at url A. *)
Lemma activation_check_uses_cache_witness :
  remoteLookups
    (run initial [TabActivated 1;
                  Settle 0 (RTab (Some (1%Z, Some urlA))) false;
                  Settle 1 (RBaseUrl huntlyBase) false;
                  Settle 1 (RPageOperateResult NoResult) false])
  = [urlA].
Proof.
  exact (activation_check_uses_cache initial 1 1 urlA (Some huntlyBase)
           (Some NoResult) eq_refl).
Defined.

Lemma scenarioToolbar_data :
  Toolbar.getAIToolbarData scenarioToolbar = Some scenarioExternalModels.
Proof. vm_compute. reflexivity. Defined.

Lemma huntlyToolbar_data :
  Toolbar.getAIToolbarData huntlyToolbar = Some huntlyExternalModels.
Proof. vm_compute. reflexivity. Defined.

(** The two providers of [scenarioToolbar]. *)
Lemma models_come_from_enabled_providers_witness :
  exists rest,
    Toolbar.models scenarioExternalModels
    = (if huntlyServerUsed scenarioToolbar
       then [Toolbar.huntlyServerModel] else []) ++ rest /\
    forall x, x ∈ rest ->
      surfacedBy scenarioToolbar x /\ Toolbar.provider x <> lit "huntly-server".
Proof.
  exact (models_come_from_enabled_providers scenarioToolbar
           scenarioExternalModels scenarioToolbar_data).
Defined.

Lemma enabled_models_are_all_listed_witness :
  exists x, x ∈ Toolbar.models scenarioExternalModels /\
    Toolbar.id x = lit "openai:gpt-4o-mini" /\
    Toolbar.provider x = lit "openai" /\
    Toolbar.providerName x = lit "OpenAI".
Proof.
  assert (Hp : lit "openai" ∈ Toolbar.availableProviders scenarioToolbar)
    by (vm_compute; repeat constructor).
  assert (Hh : lit "openai" <> lit "huntly-server") by discriminate.
  assert (Hc : Toolbar.providers scenarioToolbar !! lit "openai" = Some openaiConfig)
    by (vm_compute; reflexivity).
  assert (Hm : lit "gpt-4o-mini" ∈ enabledModels openaiConfig)
    by (vm_compute; repeat constructor).
  assert (Hr : Toolbar.PROVIDER_REGISTRY scenarioToolbar !! lit "openai"
               = Some openaiMeta) by (vm_compute; reflexivity).
  exact (enabled_models_are_all_listed scenarioToolbar scenarioExternalModels
           (lit "openai") openaiConfig openaiMeta (lit "gpt-4o-mini")
           scenarioToolbar_data Hp Hh Hc eq_refl Hm Hr).
Defined.

Lemma default_model_is_listed_witness :
  Toolbar.modelItem (lit "openai") openaiMeta (lit "gpt-4o")
  ∈ Toolbar.models scenarioExternalModels.
Proof.
  exact (proj2 (default_model_is_listed scenarioToolbar scenarioExternalModels
                  scenarioToolbar_data) _ eq_refl).
Defined.

(** The Huntly server returns one shortcut. *)
Lemma huntly_shortcuts_come_with_huntly_model_witness :
  exists rest,
    Toolbar.models huntlyExternalModels = Toolbar.huntlyServerModel :: rest.
Proof.
  assert (Hs : Shortcuts.huntlyShortcuts
                 (Shortcuts.externalShortcuts [] huntlyToolbar
                    (Some [lit "Summarize"])) <> [])
    by (vm_compute; discriminate).
  exact (proj2 (proj2 (huntly_shortcuts_come_with_huntly_model []
                         huntlyToolbar (Some [lit "Summarize"])
                         huntlyExternalModels huntlyToolbar_data Hs))).
Defined.

(** The task whose selected model is the listed model gpt-4o of openai. *)
Lemma listed_model_id_round_trip_witness :
  resumeVercel 0 directTask 0 AwaitProvidersStorage
    (RProvidersStorage scenarioProviders) false startedState
  = suspend 0 (Vercel directTask 0 (AwaitPromptsSettings (lit "gpt-4o")))
      startedState.
Proof.
  assert (Hp : 58 ∉ lit "openai")
    by (vm_compute; intros Hin;
        repeat (apply elem_of_cons in Hin as [Hin|Hin]; [discriminate|]);
        now apply not_elem_of_nil in Hin).
  assert (Hc : scenarioProviders !! lit "openai"
               = Some {| enabled := true; enabledModels := [lit "gpt-4o"] |})
    by (vm_compute; reflexivity).
  exact (proj2 (listed_model_id_round_trip 0 directTask 0 startedState
                  (lit "openai") openaiMeta (lit "gpt-4o") scenarioProviders
                  {| enabled := true; enabledModels := [lit "gpt-4o"] |}
                  false Hp eq_refl Hc eq_refl eq_refl)).
Defined.

(** The managed-server task, with the preview not skipped. *)
Lemma preview_precedes_processing_witness :
  trace (step initial (ShortcutsProcess managedTask false false))
  = [(Some 0%nat, SendMessage 7 (ShortcutsPreview (lit "t2")))].
Proof.
  assert (Hh : isHuntlyServer managedTask = true) by (vm_compute; reflexivity).
  exact (proj1 (preview_precedes_processing initial managedTask Hh)).
Defined.

(** The page is saved under id 12 and its stored title is returned. *)
Lemma save_detail_success_witness :
  exists page d,
    Some clippedPage = Some page /\
    fst (SaveDetail.save_detail_init (Some clippedPage) savedAnswers)
    = [SaveDetail.SaveArticle page; SaveDetail.SavePageToLibrary 12;
       SaveDetail.GetPageDetail 12; SaveDetail.GetCollectionTree] /\
    (0 < 12)%Z /\
    SaveDetail.detail savedAnswers = SaveDetail.Fulfilled d /\
    truthy (SaveDetail.url (SaveDetail.mergedPage clippedPage storedPage)) = true /\
    SaveDetail.content (SaveDetail.mergedPage clippedPage storedPage)
    = SaveDetail.content page /\
    (truthy (SaveDetail.title page) = true ->
     truthy (SaveDetail.title (SaveDetail.mergedPage clippedPage storedPage))
     = true) /\
    (forall db, d = Some db -> truthy (SaveDetail.db_title db) = true ->
       SaveDetail.title (SaveDetail.mergedPage clippedPage storedPage)
       = SaveDetail.db_title db) /\
    (d = None -> SaveDetail.mergedPage clippedPage storedPage = page).
Proof.
  exact (save_detail_success (Some clippedPage) savedAnswers 12 (lit "{}")
           (lit "[]") (SaveDetail.mergedPage clippedPage storedPage) eq_refl).
Defined.

(** Adding the page to the library is rejected without a message. *)
Lemma save_detail_failure_has_text_witness :
  SaveDetail.save_detail_init (Some clippedPage) rejectedAnswers
  = ([SaveDetail.SaveArticle clippedPage; SaveDetail.SavePageToLibrary 12],
     SaveDetail.Failure (lit "save_detail_init failed")) /\
  truthy (lit "save_detail_init failed") = true.
Proof.
  split; [reflexivity|].
  exact (save_detail_failure_has_text (Some clippedPage) rejectedAnswers
           (lit "save_detail_init failed") eq_refl).
Defined.
